(** * Verification of the Kernel Python templates: the browser-session
    lifecycle wrapper [KernelBrowserSession]
    (pkg/templates/python/openagi-computer-use/kernel_session.py) and the
    actions that use a remote browser session:
    - examples/python-bu/main.py            ([Bu.bu_task])
    - templates/python/captcha-solver       ([Captcha.test_captcha_solver])
    - templates/python/openai-computer-use  ([OpenaiCua.cua_task])
    - templates/python/oagi-cua             ([OagiCua.*], around [SpecSession],
                                             its session wrapper being modelled
                                             from the spec)
    - templates/python/openagi-computer-use ([OpenagiCua.*])

    The platform SDK ([kernel.Kernel]) and the agent frameworks are external:
    every call to them is an event appended to a trace, and its outcome
    (return value or raised exception) is read from a [World] record, or
    from an outcome argument, that the theorems quantify over. Informational [print] calls are not modelled,
    except the two warnings of the replay teardown. *)

From Stdlib Require Import Ascii String List ZArith NArith Bool Lia.
Import ListNotations.
Open Scope string_scope.

(* ------------------------------------------------------------------ *)
(** ** Python values *)

#[local] Set Warnings "-register-all".

(** JSON-like Python values: payloads and action results. A string is a
    sequence of characters below U+0100, one [ascii] each. *)
Inductive pyval :=
| PNone
| PBool (b : bool)
| PInt (z : Z)
| PStr (s : string)
| PList (l : list pyval)
| PDict (d : list (string * pyval)).

Definition dict := list (string * pyval).

(** Python truthiness ([bool(v)]). *)
Definition truthy (v : pyval) : bool :=
  match v with
  | PNone => false
  | PBool b => b
  | PInt z => negb (Z.eqb z 0)
  | PStr s => negb (String.eqb s "")
  | PList l => match l with [] => false | _ => true end
  | PDict d => match d with [] => false | _ => true end
  end.

(** Truthiness of an [str | None] attribute. *)
Definition truthy_opt (o : option string) : bool :=
  match o with
  | Some s => negb (String.eqb s "")
  | None => false
  end.

(** [d.get(k, default)]: a dict holds each key once, the first match is it. *)
Fixpoint dict_get (d : dict) (k : string) (default : pyval) : pyval :=
  match d with
  | [] => default
  | (k', v) :: d' => if String.eqb k k' then v else dict_get d' k default
  end.

Fixpoint dict_lookup (d : dict) (k : string) : option pyval :=
  match d with
  | [] => None
  | (k', v) :: d' => if String.eqb k k' then Some v else dict_lookup d' k
  end.

Definition is_list (v : pyval) : bool :=
  match v with PList _ => true | _ => false end.

(** Decimal digits of a natural number, for [str(int)]. *)
Fixpoint digits_aux (fuel : nat) (n : N) (acc : string) : string :=
  match fuel with
  | O => acc
  | S f =>
      let d := N.modulo n 10 in
      let acc' := String (Ascii.ascii_of_N (48 + d)) acc in
      if (n <? 10)%N then acc' else digits_aux f (N.div n 10) acc'
  end.

Definition str_of_Z (z : Z) : string :=
  let body := digits_aux (S (N.size_nat (Z.abs_N z))) (Z.abs_N z) "" in
  if (z <? 0)%Z then "-" ++ body else body.

Fixpoint join (sep : string) (l : list string) : string :=
  match l with
  | [] => ""
  | [x] => x
  | x :: l' => x ++ sep ++ join sep l'
  end.

(** The three characters [repr] treats specially. *)
Definition dq : ascii := ascii_of_nat 34.
Definition sq : ascii := ascii_of_nat 39.
Definition bs : ascii := ascii_of_nat 92.

Fixpoint has_char (c : ascii) (s : string) : bool :=
  match s with
  | EmptyString => false
  | String c' s' => Ascii.eqb c c' || has_char c s'
  end.

(** [Py_hexdigits]: lower-case hexadecimal digits. *)
Definition hex_digit (n : nat) : ascii :=
  if Nat.ltb n 10 then ascii_of_nat (48 + n) else ascii_of_nat (87 + n).

(** [Py_UNICODE_ISPRINTABLE] below U+0100: the controls U+0000-U+001F and
    U+007F-U+009F, the no-break space U+00A0 and the soft hyphen U+00AD
    are not printable. *)
Definition printable (c : ascii) : bool :=
  let n := nat_of_ascii c in
  (Nat.leb 32 n && Nat.ltb n 127) || (Nat.leb 161 n && negb (Nat.eqb n 173)).

(** One character of [repr(s)] quoted with [q] ([unicode_repr] of
    CPython): the quote and the backslash are escaped with a backslash,
    tab, newline and carriage return as [\t], [\n], [\r], the other
    characters that are not printable as [\xhh]. *)
Definition escape_char (q c : ascii) : string :=
  let n := nat_of_ascii c in
  if Ascii.eqb c q || Ascii.eqb c bs then String bs (String c EmptyString)
  else if Nat.eqb n 9 then String bs "t"
  else if Nat.eqb n 10 then String bs "n"
  else if Nat.eqb n 13 then String bs "r"
  else if printable c then String c EmptyString
  else String bs (String "x"%char
         (String (hex_digit (n / 16)) (String (hex_digit (n mod 16)) EmptyString))).

Fixpoint escape (q : ascii) (s : string) : string :=
  match s with
  | EmptyString => EmptyString
  | String c s' => escape_char q c ++ escape q s'
  end.

(** [repr(s)] of a string: quoted with ['], or with the double quote when
    [s] holds a ['] and no double quote. *)
Definition str_repr (s : string) : string :=
  let q := if has_char sq s && negb (has_char dq s) then dq else sq in
  String q (escape q s ++ String q EmptyString).

(** [repr(v)]. *)
Fixpoint py_repr (v : pyval) : string :=
  match v with
  | PNone => "None"
  | PBool true => "True"
  | PBool false => "False"
  | PInt z => str_of_Z z
  | PStr s => str_repr s
  | PList l => "[" ++ join ", " (map py_repr l) ++ "]"
  | PDict d =>
      "{" ++ join ", " (map (fun kv => str_repr (fst kv) ++ ": " ++ py_repr (snd kv)) d)
      ++ "}"
  end.

(** [str(v)], i.e. what an f-string interpolates. *)
Definition py_str (v : pyval) : string :=
  match v with
  | PStr s => s
  | _ => py_repr v
  end.

Definition bool_str (b : bool) : string := if b then "True" else "False".

(* ------------------------------------------------------------------ *)
(** ** The platform, the trace and the effect monad *)

(** A [kernel.Kernel] client instance. *)
Record Kernel := mkKernel { client_no : nat }.

(** One entry of [browsers.replays.list(session_id)]. *)
Record ReplayInfo := mkReplayInfo {
  ri_replay_id : string;
  ri_replay_view_url : option string
}.

(** Observable effects, in program order. [EvCreate] is any
    session-creating call ([browsers.create], [browser.create_session]);
    [EvAgent] is the run of the external agent / browser automation. *)
Inductive event :=
| EvCreate
| EvReplayStart (sid : string)
| EvReplayStop (rid sid : string)
| EvReplayList (sid : string)
| EvReplayDownload (rid sid : string)
| EvWriteFile (path : string)
| EvDelete (sid : string)
| EvSleep (ms : N)
| EvPrint (msg : string)
| EvAgent.

(** Calls into the platform SDK. *)
Definition platform_call (e : event) : bool :=
  match e with
  | EvCreate | EvReplayStart _ | EvReplayStop _ _ | EvReplayList _
  | EvReplayDownload _ _ | EvDelete _ => true
  | _ => false
  end.

Definition replay_call (e : event) : bool :=
  match e with
  | EvReplayStart _ | EvReplayStop _ _ | EvReplayList _ | EvReplayDownload _ _ => true
  | _ => false
  end.

Definition is_create (e : event) : bool :=
  match e with EvCreate => true | _ => false end.

Definition is_delete (e : event) : bool :=
  match e with EvDelete _ => true | _ => false end.

(** Exceptions. *)
Inductive exn :=
| PlatformError (call : string)
| AgentError
| ValueError (msg : string)
| KeyError (key : string)
| TypeError
| RuntimeError (msg : string).

(** The answers of the outside world. [None] means the call raises. *)
Record World := mkWorld {
  w_kernel : Kernel;                          (* Kernel() *)
  w_create : option (string * string);        (* session_id, browser_live_view_url *)
  w_start : option string;                    (* replays.start(...).replay_id *)
  w_stop : bool;                              (* replays.stop succeeds *)
  w_list : nat -> option (list ReplayInfo);   (* the k-th replays.list call *)
  w_list_ms : nat -> N;                       (* time taken by the k-th list call *)
  w_download : bool;                          (* replays.download(...).read() succeeds *)
  w_write : bool;                             (* mkdir + open/write succeed *)
  w_delete : bool                             (* delete_by_id succeeds *)
}.

(** The [@dataclass] fields of [KernelBrowserSession] that are never
    assigned after construction. [replay_grace_period] is in milliseconds. *)
Record Config := mkConfig {
  viewport_width : Z;
  viewport_height : Z;
  stealth : bool;
  timeout_seconds : Z;
  record_replay : bool;
  replay_output_path : string;
  replay_framerate : Z;
  replay_grace_period : Z
}.

(** [KernelBrowserSession(record_replay=rr)], all other fields defaulted. *)
Definition default_config (rr : bool) : Config :=
  mkConfig 1920 1080 true 300 rr "replay.mp4" 30 5000.

(** A [KernelBrowserSession] object: its configuration and the fields set
    after browser creation. *)
Record Session := mkSession {
  cfg : Config;
  session_id : option string;
  live_view_url : option string;
  replay_id : option string;
  replay_view_url : option string;
  _kernel : option Kernel
}.

Definition new_session (rr : bool) : Session :=
  mkSession (default_config rr) None None None None None.

(** Program state: the session object, the trace, the clock
    ([time.time()] in milliseconds) and the number of list calls so far. *)
Record St := mkSt {
  sess : Session;
  trace : list event;
  clock : N;
  lists : nat
}.

Definition init_st (s : Session) : St := mkSt s [] 0 0.

Inductive res (A : Type) := Ok (a : A) | Raise (e : exn).
Arguments Ok {A} a.
Arguments Raise {A} e.

(** State and exception monad. *)
Definition M (A : Type) := St -> res A * St.

Definition ret {A} (a : A) : M A := fun st => (Ok a, st).

Definition bind {A B} (m : M A) (k : A -> M B) : M B :=
  fun st => match m st with
            | (Ok a, st') => k a st'
            | (Raise e, st') => (Raise e, st')
            end.

Definition raise {A} (e : exn) : M A := fun st => (Raise e, st).

Notation "x <- m ;; k" := (bind m (fun x => k))
  (at level 61, m at next level, right associativity).
Notation "m ;; k" := (bind m (fun _ => k)) (at level 61, right associativity).

(** [try: m except Exception: h] *)
Definition try_except {A} (m : M A) (h : exn -> M A) : M A :=
  fun st => match m st with
            | (Ok a, st') => (Ok a, st')
            | (Raise e, st') => h e st'
            end.

(** [try: m finally: fin] *)
Definition try_finally {A} (m : M A) (fin : M unit) : M A :=
  fun st => match m st with
            | (r, st1) => match fin st1 with
                          | (Ok _, st2) => (r, st2)
                          | (Raise e, st2) => (Raise e, st2)
                          end
            end.

Definition get_sess : M Session := fun st => (Ok (sess st), st).

Definition put_sess (s : Session) : M unit :=
  fun st => (Ok tt, mkSt s (trace st) (clock st) (lists st)).

Definition emit (e : event) : M unit :=
  fun st => (Ok tt, mkSt (sess st) (trace st ++ [e]) (clock st) (lists st)).

Definition now : M N := fun st => (Ok (clock st), st).

(** [await asyncio.sleep(ms / 1000)] *)
Definition sleep (ms : N) : M unit :=
  fun st => (Ok tt, mkSt (sess st) (trace st ++ [EvSleep ms]) (clock st + ms)%N (lists st)).

(** A value or an exception produced by an external library. *)
Definition lift {A} (r : res A) : M A := fun st => (r, st).

(** The outcome of a computation followed by [return f(x)]. *)
Definition res_map {A B} (f : A -> B) (r : res A) : res B :=
  match r with Ok a => Ok (f a) | Raise e => Raise e end.

Definition of_option {A} (call : string) (o : option A) : M A :=
  match o with Some a => ret a | None => raise (PlatformError call) end.

Definition check (call : string) (b : bool) : M unit :=
  if b then ret tt else raise (PlatformError call).

(** Setters of the session fields. *)
Definition set_kernel (k : option Kernel) (s : Session) : Session :=
  mkSession (cfg s) (session_id s) (live_view_url s) (replay_id s) (replay_view_url s) k.
Definition set_session_id (o : option string) (s : Session) : Session :=
  mkSession (cfg s) o (live_view_url s) (replay_id s) (replay_view_url s) (_kernel s).
Definition set_live_view_url (o : option string) (s : Session) : Session :=
  mkSession (cfg s) (session_id s) o (replay_id s) (replay_view_url s) (_kernel s).
Definition set_replay_id (o : option string) (s : Session) : Session :=
  mkSession (cfg s) (session_id s) (live_view_url s) o (replay_view_url s) (_kernel s).
Definition set_replay_view_url (o : option string) (s : Session) : Session :=
  mkSession (cfg s) (session_id s) (live_view_url s) (replay_id s) o (_kernel s).

Definition modify (f : Session -> Session) : M unit :=
  s <- get_sess;; put_sess (f s).

(* ------------------------------------------------------------------ *)
(** ** [KernelBrowserSession] (kernel_session.py) *)

Module KBS.
Section WithWorld.
Variable w : World.

(** Platform SDK calls: the call is recorded, then its outcome is read
    from the world. *)
Definition browsers_create : M (string * string) :=
  emit EvCreate;; of_option "browsers.create" (w_create w).

Definition replays_start (sid : string) : M string :=
  emit (EvReplayStart sid);; of_option "browsers.replays.start" (w_start w).

Definition replays_stop (rid sid : string) : M unit :=
  emit (EvReplayStop rid sid);; check "browsers.replays.stop" (w_stop w).

Definition replays_list (sid : string) : M (list ReplayInfo) :=
  fun st =>
    let k := lists st in
    let st' := mkSt (sess st) (trace st ++ [EvReplayList sid])
                    (clock st + w_list_ms w k)%N (S k) in
    match w_list w k with
    | Some l => (Ok l, st')
    | None => (Raise (PlatformError "browsers.replays.list"), st')
    end.

Definition replays_download (rid sid : string) : M unit :=
  emit (EvReplayDownload rid sid);; check "browsers.replays.download" (w_download w).

Definition delete_by_id (sid : string) : M unit :=
  emit (EvDelete sid);; check "browsers.delete_by_id" (w_delete w).

(** [max_wait = 60] seconds. *)
Definition max_wait : N := 60000.

(** The body of one iteration of the readiness poll:
    {v
    try:
        replays = self._kernel.browsers.replays.list(self.session_id)
        for replay in replays:
            if replay.replay_id == self.replay_id:
                self.replay_view_url = replay.replay_view_url
                replay_ready = True
                break
        if replay_ready:
            break
    except Exception:
        pass
    v}
    returning [replay_ready]. *)
Definition poll_attempt (rid sid : string) : M bool :=
  try_except
    (replays <- replays_list sid;;
     match find (fun r => String.eqb (ri_replay_id r) rid) replays with
     | Some r => modify (set_replay_view_url (ri_replay_view_url r));; ret true
     | None => ret false
     end)
    (fun _ => ret false).

(** [while time.time() - start_time < max_wait: <attempt>; await asyncio.sleep(1)].
    Every iteration that does not break sleeps one second, so at most 60
    iterations run: [poll_loop_fuel_enough] shows that fuel 60 is never the
    reason the loop stops. *)
Fixpoint poll_loop (fuel : nat) (start_time : N) (rid sid : string) : M bool :=
  match fuel with
  | O => ret false
  | S f =>
      t <- now;;
      if (t - start_time <? max_wait)%N then
        ready <- poll_attempt rid sid;;
        if ready then ret true
        else sleep 1000;; poll_loop f start_time rid sid
      else ret false
  end.

(** Download, [video_data.read()], [mkdir(parents=True, exist_ok=True)] and
    the file write, inside [try: ... except Exception as e: print(...)]. *)
Definition download_replay (rid sid : string) : M unit :=
  s <- get_sess;;
  try_except
    (replays_download rid sid;;
     check "write" (w_write w);;
     emit (EvWriteFile (replay_output_path (cfg s))))
    (fun _ => emit (EvPrint "Error downloading replay")).

Definition _stop_and_download_replay : M unit :=
  s <- get_sess;;
  match _kernel s, session_id s, replay_id s with
  | Some _, Some sid, Some rid =>
      if negb (truthy_opt (Some sid)) || negb (truthy_opt (Some rid)) then ret tt
      else
        replays_stop rid sid;;
        sleep 2000;;
        start_time <- now;;
        replay_ready <- poll_loop 60 start_time rid sid;;
        (if replay_ready then ret tt
         else emit (EvPrint "Warning: Replay may still be processing"));;
        download_replay rid sid
  | _, _, _ => ret tt
  end.

Definition _start_replay : M unit :=
  s <- get_sess;;
  match _kernel s, session_id s with
  | Some _, Some sid =>
      if negb (truthy_opt (Some sid)) then ret tt
      else rid <- replays_start sid;; modify (set_replay_id (Some rid))
  | _, _ => ret tt
  end.

Definition __aenter__ : M unit :=
  modify (set_kernel (Some (w_kernel w)));;
  browser <- browsers_create;;
  modify (set_session_id (Some (fst browser)));;
  modify (set_live_view_url (Some (snd browser)));;
  s <- get_sess;;
  if record_replay (cfg s) then _start_replay else ret tt.

Definition __aexit__ : M unit :=
  s <- get_sess;;
  (match _kernel s, session_id s with
   | Some _, Some sid =>
       if negb (truthy_opt (Some sid)) then ret tt
       else
         (if record_replay (cfg s) && truthy_opt (replay_id s) then
            (if (0 <? replay_grace_period (cfg s))%Z
             then sleep (Z.to_N (replay_grace_period (cfg s))) else ret tt);;
            _stop_and_download_replay
          else ret tt);;
         delete_by_id sid
   | _, _ => ret tt
   end);;
  modify (set_session_id None);;
  modify (set_replay_id None);;
  modify (set_kernel None).

(** [async with KernelBrowserSession(...) as session: body]: [__aexit__]
    runs only when [__aenter__] returned; it returns [None], so an exception
    of the body is re-raised after it, and an exception of [__aexit__]
    replaces the body's outcome. *)
Definition async_with {A} (body : M A) : M A :=
  __aenter__;; try_finally body __aexit__.

End WithWorld.

(** The [kernel] property. *)
Definition kernel (s : Session) : res Kernel :=
  match _kernel s with
  | None => Raise (RuntimeError "Session not initialized. Use async with context.")
  | Some k => Ok k
  end.

(** The wrapped task: the agent runs (driving the browser), then returns a
    value or raises. *)
Definition agent_run {A} (outcome : res A) : M A :=
  emit EvAgent;; lift outcome.

(** A complete invocation of the wrapper around a task. *)
Definition lifecycle {A} (w : World) (rr : bool) (outcome : res A) : res A * St :=
  async_with w (agent_run outcome) (init_st (new_session rr)).

End KBS.

(* ------------------------------------------------------------------ *)
(** ** The actions *)

(** [if not payload or not payload.get(k): raise ValueError(msg)];
    returns the payload dict. *)
Definition require_field (payload : option dict) (k msg : string) : M dict :=
  match payload with
  | Some d =>
      if truthy (PDict d) && truthy (dict_get d k PNone) then ret d
      else raise (ValueError msg)
  | None => raise (ValueError msg)
  end.

(** [payload[k]] *)
Definition getitem (d : dict) (k : string) : M pyval :=
  match dict_lookup d k with
  | Some v => ret v
  | None => raise (KeyError k)
  end.

(** [async with KernelBrowserSession(record_replay=rr) as session: body] *)
Definition with_new_session {A} (w : World) (rr : bool) (body : M A) : M A :=
  put_sess (new_session rr);; KBS.async_with w body.

Definition opt_str (o : option string) : pyval :=
  match o with Some s => PStr s | None => PNone end.

(** examples/python-bu/main.py. The agent's outcome is
    [result.final_result()] (raising if [agent.run()] raises) and
    [result.errors()]. *)
Module Bu.
Definition bu_task (w : World) (final_result : res (option string))
    (errors : list pyval) (input_data : option dict) : M pyval :=
  kernel_browser <- KBS.browsers_create w;;
  task <- (match input_data with
           | Some d => getitem d "task"
           | None => raise TypeError
           end);;
  r <- KBS.agent_run final_result;;
  match r with
  | Some v => ret (PDict [("final_result", PStr v)])
  | None => ret (PDict [("errors", PList errors)])
  end.
End Bu.

(** templates/python/captcha-solver/main.py. [navigation] is the outcome of
    the playwright session (connect, page setup, goto, close). *)
Module Captcha.
Definition test_captcha_solver (w : World) (navigation : res unit) : M pyval :=
  kernel_browser <- KBS.browsers_create w;;
  try_finally
    (KBS.agent_run navigation;; ret PNone)
    (KBS.delete_by_id w (fst kernel_browser)).
End Captcha.

(** templates/python/openai-computer-use/main.py. *)
Module OpenaiCua.
(** The outcomes of what [run_agent] calls outside this file (computers/
    and agent.py): entering [KernelPlaywrightBrowser({"cdp_ws_url": ...})];
    the block's calls [computer.goto(...)], [Agent(...)] and
    [agent.run_full_turn(...)], giving the response items (dicts) or the
    exception one of them raised; and the browser's [__exit__], which
    closes it and returns normally or raises. *)
Record AgentTurn := mkAgentTurn {
  at_browser : res unit;
  at_turn : res (list dict);
  at_exit : res unit
}.

(** The end of [run_agent]'s [with] block, from the response items on:
    {v
    if not response_items or "content" not in response_items[-1]:
        raise ValueError("No response from agent")
    content = response_items[-1]["content"]
    if (isinstance(content, list) and content
            and isinstance(content[0], dict) and "text" in content[0]):
        result = content[0]["text"]
    elif isinstance(content, str):
        result = content
    else:
        result = str(content)
    return {"result": result}
    v} *)
Definition result_of_response (response_items : list dict) : res pyval :=
  match response_items with
  | [] => Raise (ValueError "No response from agent")
  | _ =>
      let item := last response_items [] in
      match dict_lookup item "content" with
      | None => Raise (ValueError "No response from agent")
      | Some content =>
          let result :=
            match content with
            | PList (PDict block :: _) =>
                match dict_lookup block "text" with
                | Some t => t
                | None => PStr (py_str content)
                end
            | PStr s => PStr s
            | _ => PStr (py_str content)
            end in
          Ok (PDict [("result", result)])
      end
  end.

(** [run_agent]: [with KernelPlaywrightBrowser(...) as computer: <block>].
    The block runs once the browser is entered; [__exit__] runs after the
    block whether it returned or raised. It returns [None] (the browser
    class does not suppress exceptions), so the block's outcome stands
    unless [__exit__] itself raises. *)
Definition run_agent (a : AgentTurn) : res pyval :=
  match at_browser a with
  | Raise e => Raise e
  | Ok _ =>
      let block :=
        match at_turn a with
        | Raise e => Raise e
        | Ok response_items => result_of_response response_items
        end in
      match at_exit a with
      | Ok _ => block
      | Raise e => Raise e
      end
  end.

(** [cua_task]: [return await asyncio.to_thread(run_agent)] inside
    [try: ... finally: client.browsers.delete_by_id(kernel_browser.session_id)]. *)
Definition cua_task (w : World) (a : AgentTurn) (payload : option dict) : M pyval :=
  d <- require_field payload "task" "task is required";;
  kernel_browser <- KBS.browsers_create w;;
  try_finally
    (KBS.agent_run (run_agent a))
    (KBS.delete_by_id w (fst kernel_browser)).
End OpenaiCua.

(** Modelled from the spec: the [KernelBrowserSession] that
    templates/python/oagi-cua/main.py imports from its own
    kernel_session.py, a file that is not among the repository's files.
    Spec 4.1 with recording disabled, as both oagi-cua actions construct it
    ([record_replay=False]): acquire a remote browser session (an error of
    the creation call propagates, spec 7), run the enclosed work, and
    delete the session last whether the work returned or raised (the
    guaranteed-release pattern of spec 7 and 9, with [finally] semantics:
    an error of the deletion itself propagates). *)
Module SpecSession.
Definition async_with {A} (w : World) (body : M A) : M A :=
  browser <- KBS.browsers_create w;;
  try_finally body (KBS.delete_by_id w (fst browser)).

(** A complete invocation around a task. *)
Definition lifecycle {A} (w : World) (outcome : res A) : res A * St :=
  async_with w (KBS.agent_run outcome) (init_st (new_session false)).
End SpecSession.

(** templates/python/oagi-cua/main.py, around [SpecSession.async_with].
    [agent_success] is the outcome of [agent.execute(...)]. *)
Module OagiCua.
Definition oagi_default_task (w : World) (agent_success : res bool) (payload : option dict)
    : M pyval :=
  d <- require_field payload "instruction" "instruction is required";;
  instruction <- getitem d "instruction";;
  let model := dict_get d "model" (PStr "lux-actor-1") in
  SpecSession.async_with w
    (success <- KBS.agent_run agent_success;;
     ret (PDict [("success", PBool success);
                 ("result", PStr ("Task completed with model " ++ py_str model
                                  ++ ". Success: " ++ bool_str success))])).

Definition oagi_tasker_task (w : World) (agent_success : res bool) (payload : option dict)
    : M pyval :=
  d <- require_field payload "task" "task is required";;
  (if truthy (dict_get d "todos" PNone) && is_list (dict_get d "todos" PNone) then ret tt
   else raise (ValueError "todos must be a non-empty list of steps"));;
  task <- getitem d "task";;
  todos <- getitem d "todos";;
  SpecSession.async_with w
    (result <- KBS.agent_run agent_success;;
     ret (PDict [("success", PBool result);
                 ("result", PStr ("TaskerAgent completed. Task: " ++ py_str task
                                  ++ ". Success: " ++ bool_str result))])).
End OagiCua.

(** templates/python/openagi-computer-use/main.py: as [OagiCua], with
    [record_replay] taken from the payload and the replay URL returned
    after the [async with] block. *)
Module OpenagiCua.
Definition oagi_default_task (w : World) (agent_success : res bool) (payload : option dict)
    : M pyval :=
  d <- require_field payload "instruction" "instruction is required";;
  instruction <- getitem d "instruction";;
  let model := dict_get d "model" (PStr "lux-actor-1") in
  let record_replay := dict_get d "record_replay" (PBool false) in
  success <- with_new_session w (truthy record_replay) (KBS.agent_run agent_success);;
  session <- get_sess;;
  ret (PDict [("success", PBool success);
              ("result", PStr ("Task completed with model " ++ py_str model
                               ++ ". Success: " ++ bool_str success));
              ("replay_url", opt_str (replay_view_url session))]).

Definition oagi_tasker_task (w : World) (agent_success : res bool) (payload : option dict)
    : M pyval :=
  d <- require_field payload "task" "task is required";;
  (if truthy (dict_get d "todos" PNone) && is_list (dict_get d "todos" PNone) then ret tt
   else raise (ValueError "todos must be a non-empty list of steps"));;
  task <- getitem d "task";;
  todos <- getitem d "todos";;
  let record_replay := dict_get d "record_replay" (PBool false) in
  success <- with_new_session w (truthy record_replay) (KBS.agent_run agent_success);;
  session <- get_sess;;
  ret (PDict [("success", PBool success);
              ("result", PStr ("TaskerAgent completed. Task: " ++ py_str task
                               ++ ". Success: " ++ bool_str success));
              ("replay_url", opt_str (replay_view_url session))]).
End OpenagiCua.

(** Running an action from the initial state. *)
Definition run {A} (m : M A) : res A * St := m (init_st (new_session false)).

Definition count_create (t : list event) : nat := List.length (filter is_create t).
Definition count_delete (t : list event) : nat := List.length (filter is_delete t).

(** As many session deletions as session creations. *)
Definition balanced (t : list event) : Prop := count_create t = count_delete t.

(** [bool(payload.get("record_replay", False))] for a payload that passed
    validation. *)
Definition records_replay (p : option dict) : bool :=
  match p with
  | Some d => truthy (dict_get d "record_replay" (PBool false))
  | None => false
  end.

(** The payload has no usable value under [k]: no payload, no such key,
    [None] or the empty string. *)
Definition field_absent (p : option dict) (k : string) : Prop :=
  match p with
  | None => True
  | Some d => dict_lookup d k = None \/ dict_lookup d k = Some PNone
              \/ dict_lookup d k = Some (PStr "")
  end.

(* ------------------------------------------------------------------ *)
(** ** Shapes of traces *)

Open Scope list_scope.

Definition warn_msg : string := "Warning: Replay may still be processing".

(** The list calls and one-second sleeps of a poll that ran [n] unsuccessful
    iterations, then stopped, with a last successful list call when
    [ready]. *)
Definition poll_events (sid : string) (n : nat) (ready : bool) : list event :=
  concat (repeat [EvReplayList sid; EvSleep 1000] n)
  ++ (if ready then [EvReplayList sid] else []).

(** The events of [_stop_and_download_replay] once the stop call succeeded. *)
Definition replay_teardown_events (w : World) (rid sid path : string) (n : nat) (ready : bool)
    : list event :=
  [EvReplayStop rid sid; EvSleep 2000] ++ poll_events sid n ready
  ++ (if ready then [] else [EvPrint warn_msg])
  ++ [EvReplayDownload rid sid;
      if w_download w && w_write w then EvWriteFile path
      else EvPrint "Error downloading replay"].

(** The fields [_stop_and_download_replay] never assigns. *)
Definition sess_frame (s s' : Session) : Prop :=
  cfg s' = cfg s /\ session_id s' = session_id s /\ live_view_url s' = live_view_url s
  /\ replay_id s' = replay_id s /\ _kernel s' = _kernel s.

(** [replay_view_url] is unchanged or was copied from a listed replay. *)
Definition url_from_poll (w : World) (s s' : Session) : Prop :=
  replay_view_url s' = replay_view_url s
  \/ exists k l r, w_list w k = Some l /\ In r l /\ replay_view_url s' = ri_replay_view_url r.

(* ------------------------------------------------------------------ *)
(** ** The readiness poll *)

(** Reading of a teardown that got past the stop call. *)
Definition teardown_ok (w : World) (st st' : St) (rid sid : string) : Prop :=
  exists n b,
    trace st' = trace st ++ replay_teardown_events w rid sid (replay_output_path (cfg (sess st))) n b
    /\ (n <= 60)%nat
    /\ sess_frame (sess st) (sess st')
    /\ url_from_poll w (sess st) (sess st')
    /\ (b = false -> replay_view_url (sess st') = replay_view_url (sess st))
    /\ (b = true -> exists k l r, w_list w k = Some l /\ In r l /\ ri_replay_id r = rid).

(** The three assignments that end [__aexit__]. *)
Definition reset (s : Session) : Session :=
  set_kernel None (set_replay_id None (set_session_id None s)).

Definition upd_trace (st : St) (t : list event) : St :=
  mkSt (sess st) (trace st ++ t) (clock st) (lists st).

Definition delete_outcome (w : World) (st : St) (sid : string) : res unit * St :=
  if w_delete w then (Ok tt, mkSt (reset (sess st)) (trace st ++ [EvDelete sid]) (clock st) (lists st))
  else (Raise (PlatformError "browsers.delete_by_id"), upd_trace st [EvDelete sid]).

(** The grace-period wait. *)
Definition after_grace (st : St) : St :=
  let g := replay_grace_period (cfg (sess st)) in
  if (0 <? g)%Z then mkSt (sess st) (trace st ++ [EvSleep (Z.to_N g)]) (clock st + Z.to_N g)%N (lists st)
  else st.

(** Unfold the monad and the straight-line code of the wrapper. *)
Ltac run_m :=
  cbv beta iota delta [bind ret raise emit get_sess put_sess modify now sleep lift
    of_option check try_except try_finally
    set_kernel set_session_id set_live_view_url set_replay_id set_replay_view_url
    sess trace clock lists cfg session_id live_view_url replay_id replay_view_url _kernel
    fst snd KBS.async_with KBS.__aenter__ KBS.browsers_create KBS.agent_run
    KBS._start_replay KBS.replays_start new_session truthy_opt negb record_replay
    default_config init_st KBS.lifecycle].

(** Also unfold the exit hook (for runs that skip the recording teardown). *)
Ltac run_all :=
  run_m; cbv beta iota delta [KBS.__aexit__ KBS.delete_by_id andb orb bind ret raise emit
    get_sess put_sess modify check set_kernel set_session_id set_replay_id
    sess trace clock lists cfg session_id live_view_url replay_id replay_view_url _kernel
    record_replay truthy_opt negb].

(** The session object once [__aenter__] returned. *)
Definition entered (w : World) (rr : bool) (sid u : string) : Session :=
  mkSession (default_config rr) (Some sid) (Some u) (if rr then w_start w else None) None
            (Some (w_kernel w)).

(** The outcome of [try: body finally: __aexit__] once [__aexit__] ran. *)
Definition combine {A} (r : res A) (x : res unit * St) : res A * St :=
  match x with
  | (Ok _, st') => (r, st')
  | (Raise e, st') => (Raise e, st')
  end.

(** Sample platforms used to evaluate the code on concrete inputs. *)
Definition replay_r1 : ReplayInfo := mkReplayInfo "r1" (Some "https://replay/r1").

(** Every call succeeds; the replay is listed from the first poll on. *)
Definition w_ok : World :=
  mkWorld (mkKernel 0) (Some ("s1", "https://live/s1")) (Some "r1") true
          (fun _ => Some [replay_r1]) (fun _ => 250%N) true true true.

(** As [w_ok], but [replays.stop] raises. *)
Definition w_stop_fails : World :=
  mkWorld (mkKernel 0) (Some ("s1", "https://live/s1")) (Some "r1") false
          (fun _ => Some [replay_r1]) (fun _ => 250%N) true true true.

(** As [w_ok], but the replay never shows up in the listing (every other
    list call raises). *)
Definition w_never_ready : World :=
  mkWorld (mkKernel 0) (Some ("s1", "https://live/s1")) (Some "r1") true
          (fun k => if Nat.even k then Some [] else None) (fun _ => 250%N) true true true.

(** As [w_ok], but [replays.start] raises. *)
Definition w_start_fails : World :=
  mkWorld (mkKernel 0) (Some ("s1", "https://live/s1")) None true
          (fun _ => Some [replay_r1]) (fun _ => 250%N) true true true.

(** As [w_ok], but the platform hands back an empty session id. *)
Definition w_empty_sid : World :=
  mkWorld (mkKernel 0) (Some ("", "https://live/s1")) (Some "r1") true
          (fun _ => Some [replay_r1]) (fun _ => 250%N) true true true.

(** As [w_ok], but [replays.download] raises. *)
Definition w_download_fails : World :=
  mkWorld (mkKernel 0) (Some ("s1", "https://live/s1")) (Some "r1") true
          (fun _ => Some [replay_r1]) (fun _ => 250%N) false true true.

(** Sample runs of the openai agent: the last response item's content is a
    list whose first block carries a ["text"] of value [t]; a refusal
    block (no ["text"]); no response item at all. *)
Definition turn_text (t : pyval) : OpenaiCua.AgentTurn :=
  OpenaiCua.mkAgentTurn (Ok tt)
    (Ok [[("role", PStr "assistant");
          ("content", PList [PDict [("type", PStr "output_text"); ("text", t)]])]])
    (Ok tt).

Definition turn_refusal : OpenaiCua.AgentTurn :=
  OpenaiCua.mkAgentTurn (Ok tt)
    (Ok [[("role", PStr "assistant");
          ("content", PList [PDict [("type", PStr "refusal"); ("refusal", PStr "I can't")]])]])
    (Ok tt).

Definition turn_no_response : OpenaiCua.AgentTurn :=
  OpenaiCua.mkAgentTurn (Ok tt) (Ok []) (Ok tt).

(** The session of a recording run once the task finished. *)
Definition st_recording_after_task : St :=
  mkSt (entered w_ok true "s1" "https://live/s1")
       [EvCreate; EvReplayStart "s1"; EvAgent] 0 0.

(** The result of the oagi-cua actions: [{"success": bool, "result": str}]. *)
Definition oagi_shape (f : bool -> pyval) : Prop :=
  forall b, exists x, f b = PDict [("success", PBool b); ("result", PStr x)].

(** A selector that picks none of the recording-teardown events. *)
Definition misses_teardown (f : event -> bool) (rid sid path : string) : Prop :=
  f (EvReplayStop rid sid) = false /\ f (EvSleep 2000) = false /\ f (EvReplayList sid) = false
  /\ f (EvSleep 1000) = false /\ f (EvPrint warn_msg) = false
  /\ f (EvReplayDownload rid sid) = false /\ f (EvWriteFile path) = false
  /\ f (EvPrint "Error downloading replay") = false.

Lemma bind_run {A B} (m : M A) (k : A -> M B) (st : St) :
  bind m k st = match m st with
                | (Ok a, st') => k a st'
                | (Raise e, st') => (Raise e, st')
                end.
Proof. reflexivity. Qed.

Section Poll.
Variable w : World.

Lemma poll_attempt_spec (rid sid : string) (st : St) :
  exists b st',
    KBS.poll_attempt w rid sid st = (Ok b, st')
    /\ trace st' = trace st ++ [EvReplayList sid]
    /\ clock st' = (clock st + w_list_ms w (lists st))%N
    /\ sess_frame (sess st) (sess st')
    /\ (if b then exists l r, w_list w (lists st) = Some l /\ In r l
                              /\ ri_replay_id r = rid
                              /\ sess st' = set_replay_view_url (ri_replay_view_url r) (sess st)
        else sess st' = sess st).
Proof.
  unfold KBS.poll_attempt, try_except, bind, KBS.replays_list.
  destruct (w_list w (lists st)) as [l|] eqn:El; cbn.
  - destruct (find (fun r => String.eqb (ri_replay_id r) rid) l) as [r|] eqn:Ef; cbn.
    + apply find_some in Ef as [Hin Heq]. apply String.eqb_eq in Heq.
      eexists true, _. split; [reflexivity|]. cbn.
      repeat split; auto. exists l, r. auto.
    + eexists false, _. split; [reflexivity|]. cbn. repeat split; auto.
  - eexists false, _. split; [reflexivity|]. cbn. repeat split; auto.
Qed.

Lemma sess_frame_refl s : sess_frame s s.
Proof. repeat split. Qed.

Lemma sess_frame_trans s1 s2 s3 :
  sess_frame s1 s2 -> sess_frame s2 s3 -> sess_frame s1 s3.
Proof. unfold sess_frame; intuition congruence. Qed.

Lemma url_from_poll_trans s1 s2 s3 :
  url_from_poll w s1 s2 -> url_from_poll w s2 s3 -> url_from_poll w s1 s3.
Proof.
  unfold url_from_poll. intros [H1|H1] [H2|H2].
  - left. congruence.
  - right; exact H2.
  - right. rewrite H2. exact H1.
  - right; exact H2.
Qed.

(** The loop never raises; its events are [n] list-and-sleep rounds (at
    most the fuel), then a final successful list call when the replay was
    found. It stops without the replay only once the time budget is spent,
    provided the fuel covers the remaining budget at one second per round. *)
Lemma poll_loop_spec (fuel : nat) (start : N) (rid sid : string) (st : St) :
  (start <= clock st)%N ->
  (KBS.max_wait <= clock st - start + 1000 * N.of_nat fuel)%N ->
  exists b n st',
    KBS.poll_loop w fuel start rid sid st = (Ok b, st')
    /\ (n <= fuel)%nat
    /\ trace st' = trace st ++ poll_events sid n b
    /\ (start <= clock st')%N
    /\ sess_frame (sess st) (sess st')
    /\ url_from_poll w (sess st) (sess st')
    /\ (if b then exists l r, w_list w (lists st' - 1) = Some l /\ In r l
                              /\ ri_replay_id r = rid
                              /\ replay_view_url (sess st') = ri_replay_view_url r
        else (KBS.max_wait <= clock st' - start)%N /\ replay_view_url (sess st') = replay_view_url (sess st)).
Proof.
  revert st. induction fuel as [|f IH]; intros st Hle Hbud.
  - exists false, O, st. cbn. rewrite app_nil_r. cbn in Hbud. rewrite N.add_0_r in Hbud.
    split; [reflexivity|]. split; [lia|]. split; [reflexivity|].
    split; [exact Hle|]. split; [apply sess_frame_refl|].
    split; [left; reflexivity|]. split; [exact Hbud|reflexivity].
  - cbn [KBS.poll_loop]. unfold bind at 1, now.
    destruct (clock st - start <? KBS.max_wait)%N eqn:Hc.
    + apply N.ltb_lt in Hc.
      destruct (poll_attempt_spec rid sid st) as (b & st1 & Hat & Htr1 & Hcl1 & Hfr1 & Hb1).
      unfold bind at 1. rewrite Hat.
      destruct b.
      * destruct Hb1 as (l & r & Hl & Hin & Hid & Hs1).
        exists true, O, st1. cbn.
        split; [reflexivity|]. split; [lia|].
        split; [rewrite Htr1; reflexivity|]. split; [lia|].
        split; [exact Hfr1|].
        split; [right; exists (lists st), l, r; rewrite Hs1; auto|].
        exists l, r. rewrite Hs1. cbn.
        unfold KBS.poll_attempt, try_except, bind, KBS.replays_list in Hat.
        rewrite Hl in Hat. cbn in Hat.
        destruct (find _ l); cbn in Hat; inversion Hat; subst; cbn;
          rewrite ?Nat.sub_0_r; auto.
      * unfold bind at 1, sleep.
        set (st2 := mkSt (sess st1) (trace st1 ++ [EvSleep 1000]) (clock st1 + 1000)%N (lists st1)).
        destruct (IH st2) as (b & n & st' & Hrun & Hn & Htr & Hle' & Hfr & Hurl & Hb).
        { unfold st2; cbn [clock]. rewrite Hcl1. lia. }
        { unfold st2; cbn [clock]. rewrite Hcl1. rewrite Nat2N.inj_succ in Hbud. lia. }
        exists b, (S n), st'. rewrite Hrun. cbn [sess st2] in *. rewrite Hb1 in *.
        split; [reflexivity|]. split; [lia|].
        split.
        { rewrite Htr. unfold st2. cbn [trace]. rewrite Htr1. unfold poll_events.
          cbn [repeat concat]. rewrite <- !app_assoc. reflexivity. }
        split; [exact Hle'|].
        split; [exact Hfr|].
        split; [exact Hurl|].
        exact Hb.
    + apply N.ltb_ge in Hc.
      exists false, O, st. cbn. rewrite app_nil_r.
      split; [reflexivity|]. split; [lia|]. split; [reflexivity|].
      split; [exact Hle|]. split; [apply sess_frame_refl|].
      split; [left; reflexivity|]. split; [exact Hc|reflexivity].
Qed.
End Poll.

Section Teardown.
Variable w : World.

(** Fuel 60 is never what stops the poll: with more fuel the loop computes
    the same, because 60 one-second rounds already exhaust the budget. *)
Lemma poll_loop_fuel_enough (fuel k : nat) (start : N) (rid sid : string) (st : St) :
  (start <= clock st)%N ->
  (KBS.max_wait <= clock st - start + 1000 * N.of_nat fuel)%N ->
  KBS.poll_loop w (fuel + k) start rid sid st = KBS.poll_loop w fuel start rid sid st.
Proof.
  revert st. induction fuel as [|f IH]; intros st Hle Hbud.
  - cbn in Hbud. rewrite N.add_0_r in Hbud. cbn [Nat.add].
    destruct k as [|k]; [reflexivity|].
    cbn [KBS.poll_loop]. unfold bind, now.
    assert (Hc : (clock st - start <? KBS.max_wait)%N = false) by (apply N.ltb_ge; lia).
    rewrite Hc. reflexivity.
  - cbn [Nat.add KBS.poll_loop]. unfold bind, now.
    destruct (clock st - start <? KBS.max_wait)%N eqn:Hc; [|reflexivity].
    destruct (poll_attempt_spec w rid sid st) as (b & st1 & Hat & _ & Hcl1 & _ & _).
    rewrite Hat.
    destruct b; [reflexivity|].
    unfold sleep. fold (@bind unit bool). apply IH.
    + cbn [clock]. rewrite Hcl1. lia.
    + cbn [clock]. rewrite Hcl1. rewrite Nat2N.inj_succ in Hbud. lia.
Qed.

(** [_stop_and_download_replay] on a started recording: it raises only
    when the stop call raises; otherwise it stops, waits, polls, warns if
    the poll timed out, and attempts the download. *)
Lemma stop_and_download_spec (st : St) (k : Kernel) (sid rid : string) :
  _kernel (sess st) = Some k -> session_id (sess st) = Some sid ->
  replay_id (sess st) = Some rid -> sid <> "" -> rid <> "" ->
  if w_stop w then
    exists st', KBS._stop_and_download_replay w st = (Ok tt, st') /\ teardown_ok w st st' rid sid
  else
    KBS._stop_and_download_replay w st
    = (Raise (PlatformError "browsers.replays.stop"),
       mkSt (sess st) (trace st ++ [EvReplayStop rid sid]) (clock st) (lists st)).
Proof.
  intros Hk Hs Hr Hsid Hrid.
  apply String.eqb_neq in Hsid, Hrid.
  unfold KBS._stop_and_download_replay.
  cbn [bind get_sess]. rewrite Hk, Hs, Hr. cbn [truthy_opt]. rewrite Hsid, Hrid.
  cbn [negb orb]. unfold KBS.replays_stop, check.
  destruct (w_stop w); cbn [bind emit raise ret sleep now].
  2: reflexivity.
  cbn [sess trace clock lists].
  set (st2 := mkSt (sess st) ((trace st ++ [EvReplayStop rid sid]) ++ [EvSleep 2000])
                   (clock st + 2000)%N (lists st)).
  destruct (poll_loop_spec w 60 (clock st + 2000) rid sid st2) as
      (b & n & st3 & Hrun & Hn & Htr & Hle & Hfr & Hurl & Hb).
  { unfold st2; cbn [clock]. lia. }
  { unfold st2; cbn [clock]. rewrite N.sub_diag. unfold KBS.max_wait. lia. }
  rewrite bind_run, Hrun.
  destruct Hfr as (Hc & Hs3 & Hl3 & Hr3 & Hk3).
  unfold KBS.download_replay, try_except, KBS.replays_download, check.
  destruct b, (w_download w) eqn:Ed, (w_write w) eqn:Ew;
    (eexists; split;
     [cbn [bind emit ret raise get_sess]; rewrite ?Ed, ?Ew; cbn [bind emit ret raise sess];
      reflexivity|]);
    (match type of Hrun with _ = (Ok ?bb, _) => exists n, bb end; split;
     [unfold replay_teardown_events; rewrite ?Hc, Ed, Ew; cbn [sess trace andb];
      rewrite Htr; unfold st2; cbn [trace sess]; rewrite <- !app_assoc; cbn [app];
      reflexivity|]);
    (split; [exact Hn|]);
    (split; [repeat split; assumption|]);
    (split; [exact Hurl|]);
    (split; [intros Hf; try discriminate; destruct Hb as [_ Hu]; exact Hu|]);
    (intros Ht; try discriminate;
     destruct Hb as (l & r & Hl & Hin & Hid & _); exists (lists st3 - 1)%nat, l, r; auto).
Qed.
End Teardown.

Section Exit.
Variable w : World.

(** [__aexit__] when no replay was recorded: only the deletion. *)
Lemma aexit_no_replay (st : St) (k : Kernel) (sid : string) :
  _kernel (sess st) = Some k -> session_id (sess st) = Some sid -> sid <> "" ->
  (record_replay (cfg (sess st)) && truthy_opt (replay_id (sess st)))%bool = false ->
  KBS.__aexit__ w st = delete_outcome w st sid.
Proof.
  intros Hk Hs Hsid Hrr. apply String.eqb_neq in Hsid.
  unfold KBS.__aexit__, delete_outcome.
  cbn [bind get_sess]. rewrite Hk, Hs. cbn [truthy_opt]. rewrite Hsid. cbn [negb].
  rewrite Hrr. unfold KBS.delete_by_id, check.
  destruct (w_delete w); reflexivity.
Qed.

(** [__aexit__] after a recording was started. *)
Lemma aexit_replay (st : St) (k : Kernel) (sid rid : string) :
  _kernel (sess st) = Some k -> session_id (sess st) = Some sid -> sid <> "" ->
  record_replay (cfg (sess st)) = true -> replay_id (sess st) = Some rid -> rid <> "" ->
  if w_stop w then
    exists st2, teardown_ok w (after_grace st) st2 rid sid
      /\ KBS.__aexit__ w st = delete_outcome w st2 sid
  else
    KBS.__aexit__ w st
    = (Raise (PlatformError "browsers.replays.stop"), upd_trace (after_grace st) [EvReplayStop rid sid]).
Proof.
  intros Hk Hs Hsid Hrr Hr Hrid.
  pose proof (stop_and_download_spec w (after_grace st) k sid rid) as Hsd.
  assert (Hg : sess (after_grace st) = sess st)
    by (unfold after_grace; destruct (0 <? _)%Z; reflexivity).
  rewrite Hg in Hsd. specialize (Hsd Hk Hs Hr Hsid Hrid).
  apply String.eqb_neq in Hsid. apply String.eqb_neq in Hrid as Hrid'.
  unfold KBS.__aexit__.
  cbn [bind get_sess]. rewrite Hk, Hs. cbn [truthy_opt]. rewrite Hsid. cbn [negb].
  rewrite Hrr, Hr. cbn [truthy_opt]. rewrite Hrid'. cbn [negb andb].
  assert (Hgr : forall (B : Type) (k' : unit -> M B),
             bind (if (0 <? replay_grace_period (cfg (sess st)))%Z
                   then sleep (Z.to_N (replay_grace_period (cfg (sess st)))) else ret tt) k' st
             = k' tt (after_grace st)).
  { intros B k'. unfold after_grace. destruct (0 <? _)%Z; reflexivity. }
  rewrite bind_run, bind_run, Hgr.
  destruct (w_stop w).
  - destruct Hsd as (st2 & Hrun & Hok).
    exists st2. split; [exact Hok|].
    rewrite Hrun. unfold KBS.delete_by_id, check, delete_outcome.
    destruct (w_delete w); reflexivity.
  - rewrite Hsd. unfold upd_trace. rewrite Hg. reflexivity.
Qed.
End Exit.

Section Lifecycle.
Variable w : World.

Lemma aenter_spec (rr : bool) (st : St) (sid u : string) :
  sess st = new_session rr -> w_create w = Some (sid, u) -> sid <> "" ->
  KBS.__aenter__ w st
  = if rr then
      match w_start w with
      | Some rid => (Ok tt, mkSt (entered w true sid u) (trace st ++ [EvCreate; EvReplayStart sid])
                               (clock st) (lists st))
      | None => (Raise (PlatformError "browsers.replays.start"),
                 mkSt (mkSession (default_config true) (Some sid) (Some u) None None
                                 (Some (w_kernel w)))
                      (trace st ++ [EvCreate; EvReplayStart sid]) (clock st) (lists st))
      end
    else (Ok tt, mkSt (entered w false sid u) (trace st ++ [EvCreate]) (clock st) (lists st)).
Proof.
  intros Hs Hc Hsid.
  apply String.eqb_neq in Hsid.
  destruct st as [s0 t0 c0 l0]. cbn in Hs. subst s0.
  run_m. rewrite Hc. run_m.
  destruct rr.
  - rewrite Hsid. run_m. unfold entered. destruct (w_start w) eqn:E; run_m; rewrite ?E;
      rewrite <- app_assoc; reflexivity.
  - reflexivity.
Qed.

Lemma with_session_entered {A} (body : M A) (st st0 : St) :
  KBS.__aenter__ w st = (Ok tt, st0) ->
  KBS.async_with w body st
  = match body st0 with
    | (r, st1) => combine r (KBS.__aexit__ w st1)
    end.
Proof.
  intros H. unfold KBS.async_with. rewrite bind_run, H.
  unfold try_finally, combine. destruct (body st0) as [r st1].
  destruct (KBS.__aexit__ w st1) as [[] st2]; reflexivity.
Qed.

Lemma with_session_enter_fails {A} (body : M A) (st st0 : St) (e : exn) :
  KBS.__aenter__ w st = (Raise e, st0) -> KBS.async_with w body st = (Raise e, st0).
Proof. intros H. unfold KBS.async_with. rewrite bind_run, H. reflexivity. Qed.

(** A value returned from an [async with] block is the body's value. *)
Lemma async_with_ok_inv {A} (body : M A) (st st' : St) (v : A) :
  KBS.async_with w body st = (Ok v, st') -> exists st0 st1, body st0 = (Ok v, st1).
Proof.
  unfold KBS.async_with. rewrite bind_run.
  destruct (KBS.__aenter__ w st) as [[u|e] st0]; [|discriminate].
  unfold try_finally. destruct (body st0) as [r st1] eqn:Hb.
  destruct (KBS.__aexit__ w st1) as [[]]; intros H; inversion H; subst; eauto; discriminate.
Qed.

(** The whole lifecycle when the platform answers with a usable session id. *)
Lemma lifecycle_run {A} (rr : bool) (outcome : res A) (sid u : string) :
  w_create w = Some (sid, u) -> sid <> "" -> (rr = true -> w_start w <> None) ->
  let st1 := mkSt (entered w rr sid u)
                  (EvCreate :: (if rr then [EvReplayStart sid] else []) ++ [EvAgent]) 0 0 in
  KBS.lifecycle w rr outcome = combine outcome (KBS.__aexit__ w st1).
Proof.
  intros Hc Hsid Hst st1.
  unfold KBS.lifecycle.
  pose proof (aenter_spec rr (init_st (new_session rr)) sid u eq_refl Hc Hsid) as He.
  destruct rr.
  - destruct (w_start w) as [rid|] eqn:E; [|exfalso; now apply Hst].
    rewrite (with_session_entered _ _ _ He). reflexivity.
  - rewrite (with_session_entered _ _ _ He). reflexivity.
Qed.

(** The lifecycle when entry fails at the start of the recording. *)
Lemma lifecycle_start_fails {A} (outcome : res A) (sid u : string) :
  w_create w = Some (sid, u) -> sid <> "" -> w_start w = None ->
  trace (snd (KBS.lifecycle w true outcome)) = [EvCreate; EvReplayStart sid]
  /\ fst (KBS.lifecycle w true outcome) = Raise (PlatformError "browsers.replays.start").
Proof.
  intros Hc Hsid Hst.
  pose proof (aenter_spec true (init_st (new_session true)) sid u eq_refl Hc Hsid) as He.
  rewrite Hst in He. unfold KBS.lifecycle. rewrite (with_session_enter_fails _ _ _ _ He).
  split; reflexivity.
Qed.

(** The lifecycle when session creation raises. *)
Lemma lifecycle_create_fails {A} (rr : bool) (outcome : res A) :
  w_create w = None ->
  KBS.lifecycle w rr outcome
  = (Raise (PlatformError "browsers.create"),
     mkSt (set_kernel (Some (w_kernel w)) (new_session rr)) [EvCreate] 0 0).
Proof.
  intros Hc. unfold KBS.lifecycle. run_m. rewrite Hc. reflexivity.
Qed.

(** The lifecycle when the platform's session id is the empty string: both
    hooks skip all platform work after the creation. *)
Lemma lifecycle_empty_sid {A} (rr : bool) (outcome : res A) (u : string) :
  w_create w = Some ("", u) ->
  trace (snd (KBS.lifecycle w rr outcome)) = [EvCreate; EvAgent]
  /\ fst (KBS.lifecycle w rr outcome) = outcome.
Proof.
  intros Hc. run_m. rewrite Hc. run_m.
  destruct rr; cbv [String.eqb]; run_all;
    destruct outcome; split; reflexivity.
Qed.
End Lifecycle.

Lemma snd_combine {A} (r : res A) (x : res unit * St) : snd (combine r x) = snd x.
Proof. destruct x as [[] st]; reflexivity. Qed.

Lemma filter_poll_events (f : event -> bool) (sid : string) (n : nat) (b : bool) :
  f (EvReplayList sid) = false -> f (EvSleep 1000) = false ->
  filter f (poll_events sid n b) = [].
Proof.
  intros H1 H2. unfold poll_events. rewrite filter_app.
  assert (filter f (concat (repeat [EvReplayList sid; EvSleep 1000] n)) = []) as ->.
  { induction n as [|n IH]; [reflexivity|].
    cbn [repeat concat]. rewrite filter_app, IH. cbn. rewrite H1, H2. reflexivity. }
  destruct b; cbn; rewrite ?H1; reflexivity.
Qed.

Lemma filter_teardown (w : World) (f : event -> bool) (rid sid path : string) (n : nat) (b : bool) :
  misses_teardown f rid sid path ->
  filter f (replay_teardown_events w rid sid path n b) = [].
Proof.
  intros (H1 & H2 & H3 & H4 & H5 & H6 & H7 & H8).
  unfold replay_teardown_events. rewrite !filter_app, filter_poll_events by assumption.
  cbn. rewrite H1, H2. destruct b; cbn; rewrite ?H5;
  destruct (w_download w && w_write w); cbn; rewrite H6, ?H7, ?H8; reflexivity.
Qed.

Lemma misses_teardown_create rid sid path : misses_teardown is_create rid sid path.
Proof. repeat split. Qed.

Lemma misses_teardown_delete rid sid path : misses_teardown is_delete rid sid path.
Proof. repeat split. Qed.

Lemma misses_teardown_start rid sid path :
  misses_teardown (fun e => match e with EvReplayStart _ => true | _ => false end) rid sid path.
Proof. repeat split. Qed.

(** A complete lifecycle whose session id is usable and whose recording, if
    any, can be stopped: the session is created once, the task runs, and the
    deletion is the last event, the only one, after all recording work. *)
Lemma lifecycle_deletes {A} (w : World) (rr : bool) (outcome : res A) (sid u : string) :
  w_create w = Some (sid, u) -> sid <> "" ->
  (rr = true -> w_start w <> None) -> (rr = true -> w_stop w = true) ->
  exists pre,
    trace (snd (KBS.lifecycle w rr outcome)) = pre ++ [EvDelete sid]
    /\ count_delete pre = 0 /\ count_create pre = 1 /\ In EvAgent pre
    /\ fst (KBS.lifecycle w rr outcome)
       = (if w_delete w then outcome else Raise (PlatformError "browsers.delete_by_id")).
Proof.
  intros Hc Hsid Hst Hstop.
  rewrite (lifecycle_run w rr outcome sid u Hc Hsid Hst).
  set (st1 := mkSt (entered w rr sid u)
                   (EvCreate :: (if rr then [EvReplayStart sid] else []) ++ [EvAgent]) 0 0).
  assert (Hdel : forall st, trace st = trace st1 ++ [] \/
                 (exists t, trace st = trace st1 ++ t /\ filter is_delete t = []
                            /\ filter is_create t = []) ->
            exists pre, trace (snd (combine outcome (delete_outcome w st sid))) = pre ++ [EvDelete sid]
              /\ count_delete pre = 0 /\ count_create pre = 1 /\ In EvAgent pre
              /\ fst (combine outcome (delete_outcome w st sid))
                 = (if w_delete w then outcome else Raise (PlatformError "browsers.delete_by_id"))).
  { intros st Ht. exists (trace st).
    assert (Hpre : exists t, trace st = trace st1 ++ t /\ filter is_delete t = []
                             /\ filter is_create t = []).
    { destruct Ht as [Ht|Ht]; [exists []; auto|exact Ht]. }
    destruct Hpre as (t & Ht' & Hd & Hcr).
    unfold delete_outcome, count_delete, count_create.
    destruct (w_delete w); cbn [combine snd fst trace upd_trace]; (split; [reflexivity|]);
      rewrite Ht'; unfold st1; cbn [trace];
      rewrite !filter_app, Hd, Hcr;
      destruct rr; cbn; repeat split; auto 6. }
  destruct rr.
  - destruct (w_start w) as [rid|] eqn:Est; [|exfalso; now apply Hst].
    destruct (String.eqb rid "") eqn:Er.
    + rewrite (aexit_no_replay w st1 (w_kernel w) sid eq_refl eq_refl Hsid).
      * apply Hdel. left. reflexivity.
      * unfold st1, entered. cbn [sess replay_id cfg record_replay default_config andb].
        rewrite Est. unfold truthy_opt. rewrite Er. reflexivity.
    + apply String.eqb_neq in Er.
      pose proof (aexit_replay w st1 (w_kernel w) sid rid eq_refl eq_refl Hsid eq_refl) as Hx.
      cbn [st1 sess entered replay_id] in Hx. rewrite Est in Hx.
      specialize (Hx eq_refl Er). rewrite (Hstop eq_refl) in Hx.
      destruct Hx as (st2 & (n & b & Htr & _) & ->).
      apply Hdel. right.
      exists ([EvSleep 5000] ++ replay_teardown_events w rid sid "replay.mp4" n b).
      rewrite Htr. split.
      * unfold after_grace. cbn. reflexivity.
      * rewrite !filter_app, !filter_teardown
          by (apply misses_teardown_delete || apply misses_teardown_create).
        split; reflexivity.
  - rewrite (aexit_no_replay w st1 (w_kernel w) sid eq_refl eq_refl Hsid eq_refl).
    apply Hdel. left. reflexivity.
Qed.

(* ------------------------------------------------------------------ *)
(** ** Claims *)

(** When the wrapped task raises, teardown deletes the session exactly once
    and as the very last platform call, after the grace wait, stop, poll
    and download, when the platform returned a non-empty session id and,
    if recording, the replay start and stop calls returned normally. The
    task's exception is re-raised (replaced by the deletion's own error if
    that call raises). *)
Theorem kbs_task_failure_deletes_session_last {A} (w : World) (rr : bool) (e : exn) (sid u : string) :
  w_create w = Some (sid, u) -> sid <> "" ->
  (rr = true -> w_start w <> None) -> (rr = true -> w_stop w = true) ->
  exists pre,
    trace (snd (KBS.lifecycle w rr (Raise e : res A))) = pre ++ [EvDelete sid]
    /\ count_delete pre = 0 /\ In EvAgent pre
    /\ fst (KBS.lifecycle w rr (Raise e : res A))
       = Raise (if w_delete w then e else PlatformError "browsers.delete_by_id").
Proof.
  intros Hc Hsid Hst Hstop.
  destruct (lifecycle_deletes w rr (Raise e : res A) sid u Hc Hsid Hst Hstop)
    as (pre & Htr & Hd & _ & Hag & Hr).
  exists pre. repeat split; auto. rewrite Hr. destruct (w_delete w); reflexivity.
Qed.

Lemma kbs_task_failure_deletes_session_last_witness :
  exists pre,
    trace (snd (KBS.lifecycle w_ok true (Raise AgentError : res bool))) = pre ++ [EvDelete "s1"]
    /\ count_delete pre = 0 /\ In EvAgent pre
    /\ fst (KBS.lifecycle w_ok true (Raise AgentError : res bool))
       = Raise (if w_delete w_ok then AgentError else PlatformError "browsers.delete_by_id").
Proof.
  apply (kbs_task_failure_deletes_session_last w_ok true AgentError "s1" "https://live/s1").
  - reflexivity.
  - discriminate.
  - intros _. discriminate.
  - intros _. reflexivity.
Defined.

(** C1 (code bug): recording on, the task raises and the teardown's
    [replays.stop] raises. [__aexit__] calls [replays.stop] outside any
    [try], so its exception leaves [__aexit__] before [delete_by_id]: the
    session is never deleted, although the wrapper promises to clean the
    session up on exit and catches the poll's and the download's errors. *)
Lemma kbs_task_failure_stop_raises_no_delete :
  In EvAgent (trace (snd (KBS.lifecycle w_stop_fails true (Raise AgentError : res unit))))
  /\ count_delete (trace (snd (KBS.lifecycle w_stop_fails true (Raise AgentError : res unit)))) = 0
  /\ fst (KBS.lifecycle w_stop_fails true (Raise AgentError : res unit))
     = Raise (PlatformError "browsers.replays.stop").
Proof.
  vm_compute. split; [|split; reflexivity].
  right. right. left. reflexivity.
Qed.

(** C5: with [record_replay=False] the wrapper makes no replay start, stop,
    list or download call, whatever the platform and the task do. *)
Theorem kbs_no_recording_no_replay_calls {A} (w : World) (outcome : res A) :
  forallb (fun e => negb (replay_call e)) (trace (snd (KBS.lifecycle w false outcome))) = true.
Proof.
  destruct (w_create w) as [[sid u]|] eqn:Hc.
  - destruct (String.eqb sid "") eqn:E.
    + apply String.eqb_eq in E. subst sid.
      rewrite (proj1 (lifecycle_empty_sid w false outcome u Hc)). reflexivity.
    + apply String.eqb_neq in E.
      rewrite (lifecycle_run w false outcome sid u Hc E) by discriminate.
      erewrite (aexit_no_replay w _ (w_kernel w) sid); [| reflexivity | reflexivity | exact E | reflexivity].
      unfold delete_outcome, combine. destruct (w_delete w); reflexivity.
  - rewrite (lifecycle_create_fails w false outcome Hc). reflexivity.
Qed.

(** C10: the [kernel] property raises [RuntimeError] exactly when the
    client field is [None], and otherwise returns that client. *)
Theorem kbs_kernel_property (s : Session) :
  ((exists msg, KBS.kernel s = Raise (RuntimeError msg)) <-> _kernel s = None)
  /\ (forall k, KBS.kernel s = Ok k <-> _kernel s = Some k).
Proof.
  unfold KBS.kernel. destruct (_kernel s) as [k|]; split.
  - split; [intros [msg H]; discriminate | discriminate].
  - intros k'. split; intros H; inversion H; reflexivity.
  - split; [reflexivity | intros _; eexists; reflexivity].
  - intros k'. split; discriminate.
Qed.

(** Every run of the wrapper around a task has one of these traces. *)
Lemma lifecycle_trace_cases {A} (w : World) (rr : bool) (outcome : res A) :
  let t := trace (snd (KBS.lifecycle w rr outcome)) in
  (w_create w = None /\ t = [EvCreate])
  \/ (exists u, w_create w = Some ("", u) /\ t = [EvCreate; EvAgent])
  \/ (exists sid u, w_create w = Some (sid, u) /\ sid <> "" /\ rr = true /\ w_start w = None
                    /\ t = [EvCreate; EvReplayStart sid])
  \/ (exists sid u, w_create w = Some (sid, u) /\ sid <> "" /\ (rr = false \/ w_start w = Some "")
                    /\ t = EvCreate :: (if rr then [EvReplayStart sid] else []) ++ [EvAgent; EvDelete sid])
  \/ (exists sid u rid, w_create w = Some (sid, u) /\ sid <> "" /\ rr = true
        /\ w_start w = Some rid /\ rid <> ""
        /\ exists tail, t = [EvCreate; EvReplayStart sid; EvAgent; EvSleep 5000] ++ tail
        /\ ((w_stop w = false /\ tail = [EvReplayStop rid sid])
            \/ (w_stop w = true
                /\ exists n b, tail = replay_teardown_events w rid sid "replay.mp4" n b ++ [EvDelete sid]
                   /\ (b = true -> exists k l r, w_list w k = Some l /\ In r l /\ ri_replay_id r = rid)))).
Proof.
  intros t. subst t.
  destruct (w_create w) as [[sid u]|] eqn:Hc.
  2: { left. rewrite (lifecycle_create_fails w rr outcome Hc). auto. }
  destruct (String.eqb sid "") eqn:E.
  { apply String.eqb_eq in E. subst sid. right; left. exists u.
    rewrite (proj1 (lifecycle_empty_sid w rr outcome u Hc)). auto. }
  apply String.eqb_neq in E.
  right; right.
  destruct rr; [destruct (w_start w) as [rid|] eqn:Hst|].
  2: { left. exists sid, u. rewrite (proj1 (lifecycle_start_fails w outcome sid u Hc E Hst)).
       auto 7. }
  - rewrite (lifecycle_run w true outcome sid u Hc E) by (rewrite Hst; discriminate).
    rewrite snd_combine.
    destruct (String.eqb rid "") eqn:Er.
    + apply String.eqb_eq in Er. subst rid.
      right; left. exists sid, u. split; [reflexivity|]. split; [exact E|]. split; [right; reflexivity|].
      erewrite (aexit_no_replay w _ (w_kernel w) sid); [| reflexivity | reflexivity | exact E |].
      * unfold delete_outcome. destruct (w_delete w); reflexivity.
      * unfold entered. cbn. rewrite Hst. reflexivity.
    + apply String.eqb_neq in Er.
      right; right. exists sid, u, rid. repeat (split; [assumption || reflexivity|]).
      pose proof (aexit_replay w (mkSt (entered w true sid u)
                    (EvCreate :: [EvReplayStart sid] ++ [EvAgent]) 0 0) (w_kernel w) sid rid
                    eq_refl eq_refl E eq_refl) as Hx.
      cbn [sess entered replay_id] in Hx. rewrite Hst in Hx. specialize (Hx eq_refl Er).
      destruct (w_stop w).
      * destruct Hx as (st2 & (n & b & Htr & _ & _ & _ & _ & Hbt) & ->).
        eexists. split; [|right; split; [reflexivity|exists n, b; split; [reflexivity|exact Hbt]]].
        unfold delete_outcome. destruct (w_delete w); cbn [snd trace upd_trace];
          rewrite Htr; reflexivity.
      * rewrite Hx. eexists. split; [|left; split; reflexivity]. reflexivity.
  - rewrite (lifecycle_run w false outcome sid u Hc E) by discriminate.
    rewrite snd_combine. right; left. exists sid, u. split; [reflexivity|]. split; [exact E|].
    split; [left; reflexivity|].
    erewrite (aexit_no_replay w _ (w_kernel w) sid); [| reflexivity | reflexivity | exact E | reflexivity].
    unfold delete_outcome. destruct (w_delete w); reflexivity.
Qed.

Lemma in_poll_events (sid : string) (n : nat) (b : bool) (e : event) :
  In e (poll_events sid n b) -> e = EvReplayList sid \/ e = EvSleep 1000.
Proof.
  unfold poll_events. rewrite in_app_iff. intros [H|H].
  - induction n as [|n IH]; [destruct H|].
    cbn [repeat concat] in H. rewrite in_app_iff in H.
    destruct H as [[<-|[<-|[]]]|H]; auto.
  - destruct b; [destruct H as [<-|[]]; auto | destruct H].
Qed.

Lemma in_teardown_ids (w : World) (rid sid path : string) (n : nat) (b : bool) (r s : string) :
  In (EvReplayStop r s) (replay_teardown_events w rid sid path n b)
  \/ In (EvReplayDownload r s) (replay_teardown_events w rid sid path n b) ->
  r = rid /\ s = sid.
Proof.
  unfold replay_teardown_events.
  intros [H|H]; rewrite !in_app_iff in H;
    (destruct H as [H|[H|[H|H]]];
     [ cbn in H; destruct H as [H|[H|[]]]; inversion H; auto
     | apply in_poll_events in H; destruct H as [H|H]; discriminate
     | destruct b; cbn in H; [destruct H|destruct H as [H|[]]; discriminate]
     | cbn in H; destruct H as [H|[H|[]]];
       [inversion H; auto | destruct (w_download w && w_write w); discriminate]]).
Qed.

(** C3 (amended): recording on, and the readiness poll never finds the
    replay: teardown prints the warning, still attempts the download, and
    then deletes the session as its last call (given a non-empty session id
    and a replay-stop call that does not raise). *)
Theorem kbs_poll_timeout_still_downloads_then_deletes {A} (w : World) (outcome : res A)
    (sid u rid : string) :
  w_create w = Some (sid, u) -> sid <> "" -> w_start w = Some rid -> rid <> "" ->
  w_stop w = true ->
  (forall k l r, w_list w k = Some l -> In r l -> ri_replay_id r <> rid) ->
  In (EvPrint warn_msg) (trace (snd (KBS.lifecycle w true outcome)))
  /\ In (EvReplayDownload rid sid) (trace (snd (KBS.lifecycle w true outcome)))
  /\ (exists pre, trace (snd (KBS.lifecycle w true outcome)) = pre ++ [EvDelete sid]
                  /\ count_delete pre = 0)
  /\ fst (KBS.lifecycle w true outcome)
     = (if w_delete w then outcome else Raise (PlatformError "browsers.delete_by_id")).
Proof.
  intros Hc Hsid Hst Hrid Hstop Hnever.
  destruct (lifecycle_deletes w true outcome sid u Hc Hsid) as (pre & Hpre & Hd & _ & _ & Hr).
  { intros _. rewrite Hst. discriminate. }
  { intros _. exact Hstop. }
  destruct (lifecycle_trace_cases w true outcome)
    as [(H & _)|[(u' & H & _)|[(sid' & u' & H & _ & _ & H' & _)|[(sid' & u' & H & _ & [H'|H'] & _)|H]]]];
    try congruence.
  destruct H as (sid' & u' & rid' & Hc' & _ & _ & Hst' & _ & tail & Ht & [(Hs & _)|(_ & n & b & Htail & Hb)]);
    [congruence|].
  rewrite Hc in Hc'. inversion Hc'; subst sid' u'. rewrite Hst in Hst'. inversion Hst'; subst rid'.
  assert (b = false) as ->.
  { destruct b; [|reflexivity]. destruct (Hb eq_refl) as (k & l & r & Hl & Hin & Hid).
    exfalso. exact (Hnever k l r Hl Hin Hid). }
  split; [|split; [|split; [exists pre; split; [exact Hpre|exact Hd]|exact Hr]]];
    rewrite Ht, Htail; unfold replay_teardown_events; rewrite !in_app_iff; cbn; tauto.
Qed.

(** C3 counterexample: the replay is never listed, yet a download of it is
    attempted after the poll gives up. *)
Lemma kbs_poll_timeout_download_attempted :
  (forall k l r, w_list w_never_ready k = Some l -> In r l -> ri_replay_id r <> "r1")
  /\ existsb (fun e => match e with EvReplayDownload _ _ => true | _ => false end)
       (trace (snd (KBS.lifecycle w_never_ready true (Ok tt)))) = true.
Proof.
  split.
  - intros k l r Hl Hin. cbn in Hl. destruct (Nat.even k); inversion Hl; subst l; destruct Hin.
  - vm_compute. reflexivity.
Qed.

Lemma kbs_poll_timeout_still_downloads_then_deletes_witness :
  In (EvPrint warn_msg) (trace (snd (KBS.lifecycle w_never_ready true (Ok tt))))
  /\ In (EvReplayDownload "r1" "s1") (trace (snd (KBS.lifecycle w_never_ready true (Ok tt))))
  /\ (exists pre, trace (snd (KBS.lifecycle w_never_ready true (Ok tt))) = pre ++ [EvDelete "s1"]
                  /\ count_delete pre = 0)
  /\ fst (KBS.lifecycle w_never_ready true (Ok tt))
     = (if w_delete w_never_ready then Ok tt else Raise (PlatformError "browsers.delete_by_id")).
Proof.
  apply (kbs_poll_timeout_still_downloads_then_deletes w_never_ready (Ok tt) "s1" "https://live/s1" "r1").
  - reflexivity.
  - discriminate.
  - reflexivity.
  - discriminate.
  - reflexivity.
  - intros k l r Hl Hin. simpl in Hl. destruct (Nat.even k); inversion Hl; subst l; destruct Hin.
Defined.

(** C7: the readiness poll swallows every failure of the list call and
    retries after exactly one 1-second sleep; it stops as soon as the replay
    is listed, or once 60 seconds have elapsed (and 60 rounds always reach
    that point, so the round bound never cuts it short); it never raises.
    Around it, [_stop_and_download_replay] (once its stop call went through)
    never raises either, and a timed-out poll differs from a successful one
    only by the printed warning and the unset [replay_view_url]: the
    download is attempted in both cases and teardown continues. *)
Theorem kbs_replay_poll_bounded_retry (w : World) (st : St) (k : Kernel) (sid rid : string) :
  _kernel (sess st) = Some k -> session_id (sess st) = Some sid ->
  replay_id (sess st) = Some rid -> sid <> "" -> rid <> "" -> w_stop w = true ->
  (forall st0, exists b n st',
     KBS.poll_loop w 60 (clock st0) rid sid st0 = (Ok b, st')
     /\ (forall extra, KBS.poll_loop w (60 + extra) (clock st0) rid sid st0 = (Ok b, st'))
     /\ (n <= 60)%nat
     /\ trace st' = trace st0 ++ poll_events sid n b
     /\ (if b then exists l r, w_list w (lists st' - 1) = Some l /\ In r l /\ ri_replay_id r = rid
                              /\ replay_view_url (sess st') = ri_replay_view_url r
         else (KBS.max_wait <= clock st' - clock st0)%N
              /\ replay_view_url (sess st') = replay_view_url (sess st0)))
  /\ (exists st' n b,
        KBS._stop_and_download_replay w st = (Ok tt, st')
        /\ trace st' = trace st ++ replay_teardown_events w rid sid (replay_output_path (cfg (sess st))) n b
        /\ (b = false -> replay_view_url (sess st') = replay_view_url (sess st))).
Proof.
  intros Hk Hs Hr Hsid Hrid Hstop.
  split.
  - intros st0.
    destruct (poll_loop_spec w 60 (clock st0) rid sid st0) as
        (b & n & st' & Hrun & Hn & Htr & _ & _ & _ & Hb).
    { lia. }
    { rewrite N.sub_diag. unfold KBS.max_wait. lia. }
    exists b, n, st'. split; [exact Hrun|]. split.
    + intros extra. rewrite poll_loop_fuel_enough; [exact Hrun| lia |].
      rewrite N.sub_diag. unfold KBS.max_wait. lia.
    + split; [exact Hn|]. split; [exact Htr|]. exact Hb.
  - pose proof (stop_and_download_spec w st k sid rid Hk Hs Hr Hsid Hrid) as H.
    rewrite Hstop in H. destruct H as (st' & Hrun & n & b & Htr & _ & _ & _ & Hb & _).
    exists st', n, b. auto.
Qed.

Lemma kbs_replay_poll_bounded_retry_witness :
  (forall st0, exists b n st',
     KBS.poll_loop w_ok 60 (clock st0) "r1" "s1" st0 = (Ok b, st')
     /\ (forall extra, KBS.poll_loop w_ok (60 + extra) (clock st0) "r1" "s1" st0 = (Ok b, st'))
     /\ (n <= 60)%nat
     /\ trace st' = trace st0 ++ poll_events "s1" n b
     /\ (if b then exists l r, w_list w_ok (lists st' - 1) = Some l /\ In r l /\ ri_replay_id r = "r1"
                              /\ replay_view_url (sess st') = ri_replay_view_url r
         else (KBS.max_wait <= clock st' - clock st0)%N
              /\ replay_view_url (sess st') = replay_view_url (sess st0)))
  /\ (exists st' n b,
        KBS._stop_and_download_replay w_ok st_recording_after_task = (Ok tt, st')
        /\ trace st' = trace st_recording_after_task
                       ++ replay_teardown_events w_ok "r1" "s1"
                            (replay_output_path (cfg (sess st_recording_after_task))) n b
        /\ (b = false -> replay_view_url (sess st') = replay_view_url (sess st_recording_after_task))).
Proof.
  apply (kbs_replay_poll_bounded_retry w_ok st_recording_after_task (mkKernel 0) "s1" "r1").
  - reflexivity.
  - reflexivity.
  - reflexivity.
  - discriminate.
  - discriminate.
  - reflexivity.
Defined.

(** C8 (amended): when [__aexit__] returns normally, [session_id],
    [replay_id] and [_kernel] are [None]; [live_view_url] and the
    configuration keep their values, and [replay_view_url] keeps its value
    or holds the URL of a replay the readiness poll listed. *)
Theorem kbs_aexit_resets_three_fields (w : World) (st st' : St) :
  KBS.__aexit__ w st = (Ok tt, st') ->
  session_id (sess st') = None /\ replay_id (sess st') = None /\ _kernel (sess st') = None
  /\ live_view_url (sess st') = live_view_url (sess st) /\ cfg (sess st') = cfg (sess st)
  /\ url_from_poll w (sess st) (sess st').
Proof.
  intros Hx.
  assert (Hreset : forall s, sess st' = reset s -> sess_frame (sess st) s ->
                   url_from_poll w (sess st) s ->
                   session_id (sess st') = None /\ replay_id (sess st') = None
                   /\ _kernel (sess st') = None
                   /\ live_view_url (sess st') = live_view_url (sess st)
                   /\ cfg (sess st') = cfg (sess st)
                   /\ url_from_poll w (sess st) (sess st')).
  { intros s Hs (Hc & _ & Hl & _ & _) Hu. rewrite Hs. cbn.
    repeat split; auto. }
  destruct (_kernel (sess st)) as [k|] eqn:Hk.
  2: { unfold KBS.__aexit__ in Hx. cbn [bind get_sess] in Hx. rewrite Hk in Hx.
       cbn in Hx. inversion Hx; subst st'. apply (Hreset (sess st)); cbn; auto.
       - apply sess_frame_refl.
       - left; reflexivity. }
  destruct (session_id (sess st)) as [sid|] eqn:Hs.
  2: { unfold KBS.__aexit__ in Hx. cbn [bind get_sess] in Hx. rewrite Hk, Hs in Hx.
       cbn in Hx. inversion Hx; subst st'. apply (Hreset (sess st)); cbn; auto.
       - apply sess_frame_refl.
       - left; reflexivity. }
  destruct (String.eqb sid "") eqn:Esid.
  { unfold KBS.__aexit__ in Hx. cbn [bind get_sess] in Hx. rewrite Hk, Hs in Hx.
    cbn [truthy_opt] in Hx. rewrite Esid in Hx.
    cbn in Hx. inversion Hx; subst st'. apply (Hreset (sess st)); cbn; auto.
    - apply sess_frame_refl.
    - left; reflexivity. }
  apply String.eqb_neq in Esid.
  destruct (record_replay (cfg (sess st)) && truthy_opt (replay_id (sess st)))%bool eqn:Hrr.
  - apply andb_true_iff in Hrr as [Hrec Hrid].
    destruct (replay_id (sess st)) as [rid|] eqn:Hr; [|discriminate].
    cbn in Hrid. apply negb_true_iff, String.eqb_neq in Hrid.
    pose proof (aexit_replay w st k sid rid Hk Hs Esid Hrec Hr Hrid) as H.
    destruct (w_stop w).
    + destruct H as (st2 & (n & b & _ & _ & Hfr & Hu & _) & Hx').
      rewrite Hx in Hx'. unfold delete_outcome in Hx'.
      destruct (w_delete w); [|discriminate].
      inversion Hx'; subst st'.
      assert (Hg : sess (after_grace st) = sess st)
        by (unfold after_grace; destruct (0 <? _)%Z; reflexivity).
      rewrite Hg in Hfr, Hu.
      apply (Hreset (sess st2)); cbn; auto.
    + rewrite Hx in H. discriminate.
  - rewrite (aexit_no_replay w st k sid Hk Hs Esid Hrr) in Hx.
    unfold delete_outcome in Hx. destruct (w_delete w); [|discriminate].
    inversion Hx; subst st'. apply (Hreset (sess st)); cbn; auto.
    + apply sess_frame_refl.
    + left; reflexivity.
Qed.

Lemma kbs_aexit_resets_three_fields_witness :
  KBS.__aexit__ w_ok st_recording_after_task
  = (Ok tt, snd (KBS.__aexit__ w_ok st_recording_after_task))
  /\ (let st' := snd (KBS.__aexit__ w_ok st_recording_after_task) in
      session_id (sess st') = None /\ replay_id (sess st') = None /\ _kernel (sess st') = None
      /\ live_view_url (sess st') = live_view_url (sess st_recording_after_task)
      /\ cfg (sess st') = cfg (sess st_recording_after_task)
      /\ url_from_poll w_ok (sess st_recording_after_task) (sess st')).
Proof.
  assert (H : KBS.__aexit__ w_ok st_recording_after_task
              = (Ok tt, snd (KBS.__aexit__ w_ok st_recording_after_task)))
    by (vm_compute; reflexivity).
  split; [exact H|].
  exact (kbs_aexit_resets_three_fields w_ok st_recording_after_task _ H).
Defined.

(** C8 counterexample: after the block exits, [live_view_url] is still
    set, so not only [replay_view_url] survives. *)
Lemma kbs_aexit_keeps_live_view_url :
  fst (KBS.lifecycle w_ok false (Ok tt)) = Ok tt
  /\ live_view_url (sess (snd (KBS.lifecycle w_ok false (Ok tt)))) = Some "https://live/s1".
Proof. vm_compute. split; reflexivity. Qed.

(** C9: in every run of the wrapper, a replay stop or download call names
    the replay id returned by the replay start call and the session id
    returned by the create call, and that start call is in the trace; and
    when [__aexit__] runs with [record_replay] set but no [replay_id], it
    makes no replay call and goes straight to deleting the session. *)
Theorem kbs_replay_calls_use_started_id {A} (w : World) (rr : bool) (outcome : res A) :
  (forall r s,
     let t := trace (snd (KBS.lifecycle w rr outcome)) in
     In (EvReplayStop r s) t \/ In (EvReplayDownload r s) t ->
     w_start w = Some r /\ (exists u, w_create w = Some (s, u)) /\ In (EvReplayStart s) t)
  /\ (forall (st : St) (k : Kernel) (sid : string),
       _kernel (sess st) = Some k -> session_id (sess st) = Some sid -> sid <> "" ->
       record_replay (cfg (sess st)) = true -> replay_id (sess st) = None ->
       KBS.__aexit__ w st = delete_outcome w st sid).
Proof.
  split.
  - intros r s t H. subst t.
    destruct (lifecycle_trace_cases w rr outcome)
      as [[_ Ht]|[(u & _ & Ht)|[(sid & u & _ & _ & _ & _ & Ht)
         |[(sid & u & _ & _ & _ & Ht)|(sid & u & rid & Hc & _ & _ & Hst & _ & tail & Ht & Htl)]]]];
      rewrite Ht in H |- *.
    + cbn in H. destruct H as [[H|[]]|[H|[]]]; discriminate.
    + cbn in H. destruct H as [[H|[H|[]]]|[H|[H|[]]]]; discriminate.
    + cbn in H. destruct H as [[H|[H|[]]]|[H|[H|[]]]]; discriminate.
    + destruct rr; cbn in H;
        destruct H as [H|H]; repeat (destruct H as [H|H]; [discriminate|]); destruct H.
    + assert (Hrs : r = rid /\ s = sid).
      { rewrite !in_app_iff in H.
        destruct H as [[H|H]|[H|H]];
          [ cbn in H; repeat (destruct H as [H|H]; [discriminate|]); destruct H
          | | cbn in H; repeat (destruct H as [H|H]; [discriminate|]); destruct H | ];
          (destruct Htl as [(_ & ->)|(_ & n & b & -> & _)];
           [ cbn in H; destruct H as [H|[]]; inversion H; auto
           | rewrite in_app_iff in H; destruct H as [H|[H|[]]];
             [ apply (in_teardown_ids w rid sid "replay.mp4" n b); auto | discriminate ] ]). }
      destruct Hrs as [-> ->]. split; [exact Hst|]. split; [exists u; exact Hc|].
      apply in_or_app. left. right. left. reflexivity.
  - intros st k sid Hk Hs Hsid Hrec Hr.
    apply (aexit_no_replay w st k sid Hk Hs Hsid).
    rewrite Hrec, Hr. reflexivity.
Qed.

Lemma kbs_replay_calls_use_started_id_witness :
  (In (EvReplayDownload "r1" "s1") (trace (snd (KBS.lifecycle w_ok true (Ok tt))))
   /\ w_start w_ok = Some "r1")
  /\ KBS.__aexit__ w_ok (mkSt (mkSession (default_config true) (Some "s1") (Some "https://live/s1")
                               None None (Some (mkKernel 0))) [] 0 0)
     = delete_outcome w_ok (mkSt (mkSession (default_config true) (Some "s1") (Some "https://live/s1")
                               None None (Some (mkKernel 0))) [] 0 0) "s1".
Proof.
  destruct (kbs_replay_calls_use_started_id w_ok true (Ok tt)) as [H1 H2].
  assert (Hin : In (EvReplayDownload "r1" "s1") (trace (snd (KBS.lifecycle w_ok true (Ok tt))))).
  { vm_compute. repeat (first [left; reflexivity | right]). }
  split.
  - split; [exact Hin|]. exact (proj1 (H1 "r1" "s1" (or_intror Hin))).
  - apply (H2 _ (mkKernel 0) "s1"); [reflexivity | reflexivity | discriminate | reflexivity | reflexivity].
Defined.

(* ------------------------------------------------------------------ *)
(** ** From the actions to the wrapper *)

Lemma agent_then_ret {A B} (o : res A) (f : A -> B) (st : St) :
  (x <- KBS.agent_run o;; ret (f x)) st = KBS.agent_run (res_map f o) st.
Proof. destruct o; reflexivity. Qed.

(** An [async with] block entered from a fresh invocation state. *)
Lemma with_new_session_fresh {A} (w : World) (rr : bool) (body : M A) (s : Session) :
  with_new_session w rr body (init_st s) = KBS.async_with w body (init_st (new_session rr)).
Proof. reflexivity. Qed.

Lemma bind_ret_l {A B} (a : A) (k : A -> M B) (st : St) : bind (ret a) k st = k a st.
Proof. reflexivity. Qed.

Lemma spec_lifecycle_run {A} (w : World) (o : res A) :
  SpecSession.lifecycle w o
  = match w_create w with
    | None => (Raise (PlatformError "browsers.create"), mkSt (new_session false) [EvCreate] 0 0)
    | Some (sid, _) =>
        (if w_delete w then o else Raise (PlatformError "browsers.delete_by_id"),
         mkSt (new_session false) [EvCreate; EvAgent; EvDelete sid] 0 0)
    end.
Proof.
  unfold SpecSession.lifecycle, SpecSession.async_with, KBS.browsers_create, KBS.delete_by_id,
    KBS.agent_run.
  cbv [bind ret raise emit of_option try_finally lift check init_st sess trace clock lists].
  destruct (w_create w) as [[sid u]|]; [|reflexivity].
  destruct o, (w_delete w); reflexivity.
Qed.

Lemma spec_session_lifecycle {A B} (w : World) (o : res A) (f : A -> B) :
  SpecSession.async_with w (x <- KBS.agent_run o;; ret (f x)) (init_st (new_session false))
  = SpecSession.lifecycle w (res_map f o).
Proof.
  unfold SpecSession.lifecycle, SpecSession.async_with. rewrite !bind_run.
  destruct (KBS.browsers_create w (init_st (new_session false))) as [[b|e] st0]; [|reflexivity].
  unfold try_finally. rewrite agent_then_ret. reflexivity.
Qed.

Lemma oagi_default_run (w : World) (o : res bool) (p : option dict) :
  (exists e, run (OagiCua.oagi_default_task w o p) = (Raise e, init_st (new_session false)))
  \/ exists f, run (OagiCua.oagi_default_task w o p) = SpecSession.lifecycle w (res_map f o)
              /\ oagi_shape f.
Proof.
  unfold run, OagiCua.oagi_default_task, require_field.
  destruct p as [d|]; [|left; eexists; reflexivity].
  destruct (truthy (PDict d) && truthy (dict_get d "instruction" PNone))%bool;
    [|left; eexists; reflexivity].
  rewrite bind_ret_l. unfold getitem.
  destruct (dict_lookup d "instruction"); [|left; eexists; reflexivity].
  rewrite bind_ret_l. right. eexists. split; [apply spec_session_lifecycle|].
  intros b. eexists. reflexivity.
Qed.

Lemma oagi_tasker_run (w : World) (o : res bool) (p : option dict) :
  (exists e, run (OagiCua.oagi_tasker_task w o p) = (Raise e, init_st (new_session false)))
  \/ exists f, run (OagiCua.oagi_tasker_task w o p) = SpecSession.lifecycle w (res_map f o)
              /\ oagi_shape f.
Proof.
  unfold run, OagiCua.oagi_tasker_task, require_field.
  destruct p as [d|]; [|left; eexists; reflexivity].
  destruct (truthy (PDict d) && truthy (dict_get d "task" PNone))%bool;
    [|left; eexists; reflexivity].
  rewrite bind_ret_l.
  destruct (truthy (dict_get d "todos" PNone) && is_list (dict_get d "todos" PNone))%bool;
    [|left; eexists; reflexivity].
  rewrite bind_ret_l. unfold getitem.
  destruct (dict_lookup d "task"); [|left; eexists; reflexivity].
  rewrite bind_ret_l.
  destruct (dict_lookup d "todos"); [|left; eexists; reflexivity].
  rewrite bind_ret_l. right. eexists. split; [apply spec_session_lifecycle|].
  intros b. eexists. reflexivity.
Qed.


Lemma openagi_default_run (w : World) (o : res bool) (p : option dict) :
  (exists e, run (OpenagiCua.oagi_default_task w o p) = (Raise e, init_st (new_session false)))
  \/ exists rr (x : bool -> string),
       run (OpenagiCua.oagi_default_task w o p)
       = match KBS.lifecycle w rr o with
         | (Ok b, st') => (Ok (PDict [("success", PBool b); ("result", PStr (x b));
                                      ("replay_url", opt_str (replay_view_url (sess st')))]), st')
         | (Raise e, st') => (Raise e, st')
         end.
Proof.
  unfold run, OpenagiCua.oagi_default_task, require_field.
  destruct p as [d|]; [|left; eexists; reflexivity].
  destruct (truthy (PDict d) && truthy (dict_get d "instruction" PNone))%bool;
    [|left; eexists; reflexivity].
  rewrite bind_ret_l. unfold getitem.
  destruct (dict_lookup d "instruction"); [|left; eexists; reflexivity].
  rewrite bind_ret_l. cbv zeta. rewrite bind_run, with_new_session_fresh.
  right. exists (truthy (dict_get d "record_replay" (PBool false))). eexists.
  unfold KBS.lifecycle.
  destruct (KBS.async_with w (KBS.agent_run o)
              (init_st (new_session (truthy (dict_get d "record_replay" (PBool false))))))
    as [[b|e] st']; reflexivity.
Qed.

Lemma openagi_tasker_run (w : World) (o : res bool) (p : option dict) :
  (exists e, run (OpenagiCua.oagi_tasker_task w o p) = (Raise e, init_st (new_session false)))
  \/ exists rr (x : bool -> string),
       run (OpenagiCua.oagi_tasker_task w o p)
       = match KBS.lifecycle w rr o with
         | (Ok b, st') => (Ok (PDict [("success", PBool b); ("result", PStr (x b));
                                      ("replay_url", opt_str (replay_view_url (sess st')))]), st')
         | (Raise e, st') => (Raise e, st')
         end.
Proof.
  unfold run, OpenagiCua.oagi_tasker_task, require_field.
  destruct p as [d|]; [|left; eexists; reflexivity].
  destruct (truthy (PDict d) && truthy (dict_get d "task" PNone))%bool;
    [|left; eexists; reflexivity].
  rewrite bind_ret_l.
  destruct (truthy (dict_get d "todos" PNone) && is_list (dict_get d "todos" PNone))%bool;
    [|left; eexists; reflexivity].
  rewrite bind_ret_l. unfold getitem.
  destruct (dict_lookup d "task"); [|left; eexists; reflexivity].
  rewrite bind_ret_l.
  destruct (dict_lookup d "todos"); [|left; eexists; reflexivity].
  rewrite bind_ret_l. cbv zeta. rewrite bind_run, with_new_session_fresh.
  right. exists (truthy (dict_get d "record_replay" (PBool false))). eexists.
  unfold KBS.lifecycle.
  destruct (KBS.async_with w (KBS.agent_run o)
              (init_st (new_session (truthy (dict_get d "record_replay" (PBool false))))))
    as [[b|e] st']; reflexivity.
Qed.

Lemma captcha_run (w : World) (nav : res unit) :
  match w_create w with
  | None => run (Captcha.test_captcha_solver w nav)
            = (Raise (PlatformError "browsers.create"), mkSt (new_session false) [EvCreate] 0 0)
  | Some (sid, _) =>
      run (Captcha.test_captcha_solver w nav)
      = (if w_delete w then res_map (fun _ => PNone) nav
         else Raise (PlatformError "browsers.delete_by_id"),
         mkSt (new_session false) [EvCreate; EvAgent; EvDelete sid] 0 0)
  end.
Proof.
  unfold run, Captcha.test_captcha_solver, KBS.browsers_create, KBS.delete_by_id, KBS.agent_run.
  cbv [bind ret raise emit of_option try_finally lift check init_st sess trace clock lists].
  destruct (w_create w) as [[sid u]|]; [|reflexivity].
  destruct nav, (w_delete w); reflexivity.
Qed.

Lemma cua_run (w : World) (a : OpenaiCua.AgentTurn) (p : option dict) :
  (run (OpenaiCua.cua_task w a p) = (Raise (ValueError "task is required"), init_st (new_session false)))
  \/ (w_create w = None
      /\ run (OpenaiCua.cua_task w a p)
         = (Raise (PlatformError "browsers.create"), mkSt (new_session false) [EvCreate] 0 0))
  \/ (exists sid u, w_create w = Some (sid, u)
      /\ run (OpenaiCua.cua_task w a p)
         = (if w_delete w then OpenaiCua.run_agent a
            else Raise (PlatformError "browsers.delete_by_id"),
            mkSt (new_session false) [EvCreate; EvAgent; EvDelete sid] 0 0)).
Proof.
  unfold run, OpenaiCua.cua_task, require_field.
  destruct p as [d|]; [|left; reflexivity].
  destruct (truthy (PDict d) && truthy (dict_get d "task" PNone))%bool; [|left; reflexivity].
  rewrite bind_ret_l. right.
  unfold KBS.browsers_create, KBS.delete_by_id, KBS.agent_run.
  cbv [bind ret raise emit of_option try_finally lift check init_st sess trace clock lists].
  destruct (w_create w) as [[sid u]|]; [|left; split; reflexivity].
  right. exists sid, u. split; [reflexivity|].
  destruct (OpenaiCua.run_agent a), (w_delete w); reflexivity.
Qed.

Lemma bu_run (w : World) (fr : res (option string)) (errs : list pyval) (inp : option dict) :
  count_delete (trace (snd (run (Bu.bu_task w fr errs inp)))) = 0
  /\ count_create (trace (snd (run (Bu.bu_task w fr errs inp)))) = 1
  /\ forall v, fst (run (Bu.bu_task w fr errs inp)) = Ok v ->
     (exists x, v = PDict [("final_result", PStr x)]) \/ v = PDict [("errors", PList errs)].
Proof.
  unfold run, Bu.bu_task, KBS.browsers_create, KBS.agent_run, getitem.
  cbv [bind ret raise emit of_option lift init_st sess trace clock lists].
  destruct (w_create w) as [[sid u]|]; [|repeat split; discriminate].
  destruct inp as [d|]; [|repeat split; discriminate].
  destruct (dict_lookup d "task"); [|repeat split; discriminate].
  destruct fr as [[x|]|e]; (split; [reflexivity|split; [reflexivity|]]); intros v H;
    inversion H; eauto.
Qed.

Lemma count_app_delete (pre : list event) (sid : string) :
  count_create (pre ++ [EvDelete sid]) = count_create pre
  /\ count_delete (pre ++ [EvDelete sid]) = S (count_delete pre).
Proof.
  unfold count_create, count_delete. rewrite !filter_app, !length_app. cbn. lia.
Qed.

Lemma lifecycle_balanced {A} (w : World) (rr : bool) (o : res A) (sid u : string) :
  w_create w = Some (sid, u) -> sid <> "" ->
  (rr = true -> w_start w <> None) -> (rr = true -> w_stop w = true) ->
  balanced (trace (snd (KBS.lifecycle w rr o))).
Proof.
  intros Hc Hsid Hst Hstop.
  destruct (lifecycle_deletes w rr o sid u Hc Hsid Hst Hstop)
    as (pre & -> & Hd & Hcr & _ & _).
  unfold balanced. destruct (count_app_delete pre sid) as [-> ->]. lia.
Qed.

Lemma spec_lifecycle_balanced {A} (w : World) (o : res A) (sid u : string) :
  w_create w = Some (sid, u) -> balanced (trace (snd (SpecSession.lifecycle w o))).
Proof. intros Hc. rewrite spec_lifecycle_run, Hc. reflexivity. Qed.

Lemma dict_get_lookup (d : dict) (k : string) (def : pyval) :
  dict_get d k def = match dict_lookup d k with Some v => v | None => def end.
Proof.
  induction d as [|[k' v] d IH]; [reflexivity|]. cbn. destruct (String.eqb k k'); auto.
Qed.

Lemma require_field_absent {B} (p : option dict) (k msg : string) (kont : dict -> M B) (st : St) :
  field_absent p k -> bind (require_field p k msg) kont st = (Raise (ValueError msg), st).
Proof.
  destruct p as [d|]; [|reflexivity]. cbn [field_absent]. intros H.
  unfold require_field. rewrite dict_get_lookup.
  destruct H as [H|[H|H]]; rewrite H; destruct (truthy (PDict d)); reflexivity.
Qed.

Lemma openagi_default_run_rr (w : World) (o : res bool) (p : option dict) :
  (exists e, run (OpenagiCua.oagi_default_task w o p) = (Raise e, init_st (new_session false)))
  \/ exists (x : bool -> string),
       run (OpenagiCua.oagi_default_task w o p)
       = match KBS.lifecycle w (records_replay p) o with
         | (Ok b, st') => (Ok (PDict [("success", PBool b); ("result", PStr (x b));
                                      ("replay_url", opt_str (replay_view_url (sess st')))]), st')
         | (Raise e, st') => (Raise e, st')
         end.
Proof.
  unfold run, OpenagiCua.oagi_default_task, require_field.
  destruct p as [d|]; [|left; eexists; reflexivity].
  destruct (truthy (PDict d) && truthy (dict_get d "instruction" PNone))%bool;
    [|left; eexists; reflexivity].
  rewrite bind_ret_l. unfold getitem.
  destruct (dict_lookup d "instruction"); [|left; eexists; reflexivity].
  rewrite bind_ret_l. cbv zeta. rewrite bind_run, with_new_session_fresh.
  right. eexists. unfold KBS.lifecycle, records_replay.
  destruct (KBS.async_with w (KBS.agent_run o)
              (init_st (new_session (truthy (dict_get d "record_replay" (PBool false))))))
    as [[b|e] st']; reflexivity.
Qed.

Lemma openagi_tasker_run_rr (w : World) (o : res bool) (p : option dict) :
  (exists e, run (OpenagiCua.oagi_tasker_task w o p) = (Raise e, init_st (new_session false)))
  \/ exists (x : bool -> string),
       run (OpenagiCua.oagi_tasker_task w o p)
       = match KBS.lifecycle w (records_replay p) o with
         | (Ok b, st') => (Ok (PDict [("success", PBool b); ("result", PStr (x b));
                                      ("replay_url", opt_str (replay_view_url (sess st')))]), st')
         | (Raise e, st') => (Raise e, st')
         end.
Proof.
  unfold run, OpenagiCua.oagi_tasker_task, require_field.
  destruct p as [d|]; [|left; eexists; reflexivity].
  destruct (truthy (PDict d) && truthy (dict_get d "task" PNone))%bool;
    [|left; eexists; reflexivity].
  rewrite bind_ret_l.
  destruct (truthy (dict_get d "todos" PNone) && is_list (dict_get d "todos" PNone))%bool;
    [|left; eexists; reflexivity].
  rewrite bind_ret_l. unfold getitem.
  destruct (dict_lookup d "task"); [|left; eexists; reflexivity].
  rewrite bind_ret_l.
  destruct (dict_lookup d "todos"); [|left; eexists; reflexivity].
  rewrite bind_ret_l. cbv zeta. rewrite bind_run, with_new_session_fresh.
  right. eexists. unfold KBS.lifecycle, records_replay.
  destruct (KBS.async_with w (KBS.agent_run o)
              (init_st (new_session (truthy (dict_get d "record_replay" (PBool false))))))
    as [[b|e] st']; reflexivity.
Qed.

(** C2 (amended): once the platform has created the session, every action
    other than bu-task makes exactly as many session-delete calls as
    session-create calls, whether its browser work returns or raises:
    captcha-solver and openai-computer-use through [try]/[finally],
    oagi-cua through its [KernelBrowserSession] (modelled from the spec),
    and openagi-computer-use through [KernelBrowserSession] when the
    platform returned a non-empty session id and, if the payload enables
    recording, the replay start and stop calls return normally. *)
Theorem actions_create_delete_balanced (w : World) (sid u : string) :
  w_create w = Some (sid, u) ->
  (forall nav, balanced (trace (snd (run (Captcha.test_captcha_solver w nav)))))
  /\ (forall a p, balanced (trace (snd (run (OpenaiCua.cua_task w a p)))))
  /\ (forall o p, balanced (trace (snd (run (OagiCua.oagi_default_task w o p)))))
  /\ (forall o p, balanced (trace (snd (run (OagiCua.oagi_tasker_task w o p)))))
  /\ (sid <> "" ->
      forall o p, (records_replay p = true -> w_start w <> None /\ w_stop w = true) ->
        balanced (trace (snd (run (OpenagiCua.oagi_default_task w o p))))
        /\ balanced (trace (snd (run (OpenagiCua.oagi_tasker_task w o p))))).
Proof.
  intros Hc.
  split; [|split; [|split; [|split]]].
  - intros nav. pose proof (captcha_run w nav) as H. rewrite Hc in H. rewrite H. reflexivity.
  - intros a p. destruct (cua_run w a p) as [H|[(Hn & _)|(sid' & u' & Hc' & H)]].
    + rewrite H. reflexivity.
    + congruence.
    + rewrite H. reflexivity.
  - intros o p. destruct (oagi_default_run w o p) as [[e H]|(f & H & _)]; rewrite H;
      [reflexivity | exact (spec_lifecycle_balanced w _ sid u Hc)].
  - intros o p. destruct (oagi_tasker_run w o p) as [[e H]|(f & H & _)]; rewrite H;
      [reflexivity | exact (spec_lifecycle_balanced w _ sid u Hc)].
  - intros Hsid o p Hrec.
    pose proof (lifecycle_balanced w (records_replay p) o sid u Hc Hsid
                  (fun E => proj1 (Hrec E)) (fun E => proj2 (Hrec E))) as Hb.
    split.
    + destruct (openagi_default_run_rr w o p) as [[e H]|(x & H)]; rewrite H; [reflexivity|].
      destruct (KBS.lifecycle w (records_replay p) o) as [[b|e] st']; exact Hb.
    + destruct (openagi_tasker_run_rr w o p) as [[e H]|(x & H)]; rewrite H; [reflexivity|].
      destruct (KBS.lifecycle w (records_replay p) o) as [[b|e] st']; exact Hb.
Qed.

Lemma actions_create_delete_balanced_witness :
  w_create w_ok = Some ("s1", "https://live/s1") /\ "s1" <> ""
  /\ (records_replay (Some [("instruction", PStr "go"); ("record_replay", PBool true)]) = true ->
      w_start w_ok <> None /\ w_stop w_ok = true)
  /\ balanced (trace (snd (run (OpenagiCua.oagi_default_task w_ok (Raise AgentError)
                                   (Some [("instruction", PStr "go"); ("record_replay", PBool true)]))))).
Proof.
  assert (H1 : w_create w_ok = Some ("s1", "https://live/s1")) by reflexivity.
  assert (H2 : "s1" <> "") by discriminate.
  assert (H3 : records_replay (Some [("instruction", PStr "go"); ("record_replay", PBool true)]) = true ->
               w_start w_ok <> None /\ w_stop w_ok = true)
    by (intros _; split; [discriminate | reflexivity]).
  split; [exact H1|]. split; [exact H2|]. split; [exact H3|].
  exact (proj1 (proj2 (proj2 (proj2 (proj2
           (actions_create_delete_balanced w_ok "s1" "https://live/s1" H1)))) H2
           (Raise AgentError) (Some [("instruction", PStr "go"); ("record_replay", PBool true)]) H3)).
Defined.

(** C2 counterexample: bu-task creates a session and never deletes it. *)
Lemma bu_task_never_deletes :
  count_create (trace (snd (run (Bu.bu_task w_ok (Ok (Some "done")) [] (Some [("task", PStr "t")]))))) = 1
  /\ count_delete (trace (snd (run (Bu.bu_task w_ok (Ok (Some "done")) [] (Some [("task", PStr "t")]))))) = 0.
Proof. vm_compute. split; reflexivity. Qed.

(** C4 (amended): the cua, oagi-cua and openagi actions raise [ValueError]
    with the message ["task is required"] (or ["instruction is required"])
    when the payload is missing or its task (instruction) field is missing,
    [None] or empty, before any platform call: the trace is empty, so no
    session is created. bu-task has no such check, and the captcha action
    takes no input. *)
Theorem actions_require_field_before_create (w : World) (p : option dict) :
  (field_absent p "task" ->
     (forall a, run (OpenaiCua.cua_task w a p)
                = (Raise (ValueError "task is required"), init_st (new_session false)))
     /\ (forall o, run (OagiCua.oagi_tasker_task w o p)
                   = (Raise (ValueError "task is required"), init_st (new_session false)))
     /\ (forall o, run (OpenagiCua.oagi_tasker_task w o p)
                   = (Raise (ValueError "task is required"), init_st (new_session false))))
  /\ (field_absent p "instruction" ->
     (forall o, run (OagiCua.oagi_default_task w o p)
                = (Raise (ValueError "instruction is required"), init_st (new_session false)))
     /\ (forall o, run (OpenagiCua.oagi_default_task w o p)
                   = (Raise (ValueError "instruction is required"), init_st (new_session false)))).
Proof.
  split; intros H; repeat split; intros;
    unfold run, OpenaiCua.cua_task, OagiCua.oagi_tasker_task, OpenagiCua.oagi_tasker_task,
      OagiCua.oagi_default_task, OpenagiCua.oagi_default_task;
    apply require_field_absent; exact H.
Qed.

Lemma actions_require_field_before_create_witness :
  field_absent (Some [("task", PStr "")]) "task"
  /\ trace (snd (run (OpenaiCua.cua_task w_ok (turn_text (PStr "done")) (Some [("task", PStr "")])))) = []
  /\ field_absent (Some [("task", PStr "")]) "instruction"
  /\ fst (run (OpenagiCua.oagi_default_task w_ok (Ok true) (Some [("task", PStr "")])))
     = Raise (ValueError "instruction is required").
Proof.
  assert (Ht : field_absent (Some [("task", PStr "")]) "task") by (cbn; auto).
  assert (Hi : field_absent (Some [("task", PStr "")]) "instruction") by (cbn; auto).
  destruct (actions_require_field_before_create w_ok (Some [("task", PStr "")])) as [T I].
  split; [exact Ht|]. split; [rewrite (proj1 (T Ht) (turn_text (PStr "done"))); reflexivity|].
  split; [exact Hi|]. rewrite (proj2 (I Hi) (Ok true)). reflexivity.
Defined.

(** C4 counterexample: bu-task with an empty task creates a session and
    runs the agent; with no task key it creates the session and only then
    raises [KeyError]. *)
Lemma bu_task_empty_task_creates_session :
  trace (snd (run (Bu.bu_task w_ok (Ok (Some "done")) [] (Some [("task", PStr "")]))))
  = [EvCreate; EvAgent]
  /\ run (Bu.bu_task w_ok (Ok (Some "done")) [] (Some []))
     = (Raise (KeyError "task"), mkSt (new_session false) [EvCreate] 0 0).
Proof. vm_compute. split; reflexivity. Qed.

Lemma run_agent_ok_inv (a : OpenaiCua.AgentTurn) (v : pyval) :
  OpenaiCua.run_agent a = Ok v ->
  OpenaiCua.at_browser a = Ok tt /\ OpenaiCua.at_exit a = Ok tt
  /\ exists items, OpenaiCua.at_turn a = Ok items /\ OpenaiCua.result_of_response items = Ok v.
Proof.
  unfold OpenaiCua.run_agent.
  destruct (OpenaiCua.at_browser a) as [[]|e]; [|discriminate].
  destruct (OpenaiCua.at_exit a) as [[]|e]; [|discriminate].
  destruct (OpenaiCua.at_turn a) as [items|e]; [|discriminate].
  intros H. eauto.
Qed.

Lemma result_of_response_ok (items : list dict) (v : pyval) :
  OpenaiCua.result_of_response items = Ok v ->
  exists content r,
    dict_lookup (last items []) "content" = Some content
    /\ v = PDict [("result", r)]
    /\ ((exists block rest, content = PList (PDict block :: rest)
                            /\ dict_lookup block "text" = Some r)
        \/ (r = PStr (py_str content)
            /\ forall block rest, content = PList (PDict block :: rest) ->
                                  dict_lookup block "text" = None)).
Proof.
  unfold OpenaiCua.result_of_response.
  destruct items as [|i items]; [discriminate|].
  destruct (dict_lookup (last (i :: items) []) "content") as [c|] eqn:E; [|discriminate].
  intros H. inversion H; subst v. exists c. eexists. split; [reflexivity|]. split; [reflexivity|].
  destruct c as [| | | s | l | d];
    try (right; split; [reflexivity | intros block rest Hc; discriminate]).
  destruct l as [|[| | | | | block] rest];
    try (right; split; [reflexivity | intros block' rest' Hc; discriminate]).
  destruct (dict_lookup block "text") as [t|] eqn:Et.
  - left. exists block, rest. auto.
  - right. split; [reflexivity|]. intros block' rest' Hc. inversion Hc; subst. exact Et.
Qed.

(** C6 (amended): each action returns a value of its own shape. bu-task:
    [{"final_result": str}] or [{"errors": list}]; captcha: [None];
    openai cua: [{"result": r}] where [r] is the ["text"] value of the first
    content block of the agent's last response item, of whatever type the
    agent put there, or else a string; the two oagi-cua actions exactly
    [{"success": bool, "result": str}]; the two openagi actions
    [{"success": bool, "result": str, "replay_url": str | None}], with
    [replay_url] present whether or not the payload enables recording. *)
Theorem actions_result_shapes (w : World) :
  (forall fr errs inp v, fst (run (Bu.bu_task w fr errs inp)) = Ok v ->
     (exists x, v = PDict [("final_result", PStr x)]) \/ v = PDict [("errors", PList errs)])
  /\ (forall nav v, fst (run (Captcha.test_captcha_solver w nav)) = Ok v -> v = PNone)
  /\ (forall a p v, fst (run (OpenaiCua.cua_task w a p)) = Ok v ->
        exists items content r,
          OpenaiCua.at_turn a = Ok items
          /\ dict_lookup (last items []) "content" = Some content
          /\ v = PDict [("result", r)]
          /\ ((exists block rest, content = PList (PDict block :: rest)
                                  /\ dict_lookup block "text" = Some r)
              \/ exists x, r = PStr x))
  /\ (forall o p v, fst (run (OagiCua.oagi_default_task w o p)) = Ok v ->
        exists b x, v = PDict [("success", PBool b); ("result", PStr x)])
  /\ (forall o p v, fst (run (OagiCua.oagi_tasker_task w o p)) = Ok v ->
        exists b x, v = PDict [("success", PBool b); ("result", PStr x)])
  /\ (forall o p v, fst (run (OpenagiCua.oagi_default_task w o p)) = Ok v ->
        exists b x u, v = PDict [("success", PBool b); ("result", PStr x); ("replay_url", opt_str u)])
  /\ (forall o p v, fst (run (OpenagiCua.oagi_tasker_task w o p)) = Ok v ->
        exists b x u, v = PDict [("success", PBool b); ("result", PStr x); ("replay_url", opt_str u)]).
Proof.
  assert (Hoagi : forall (o : res bool) (f : bool -> pyval) v,
             oagi_shape f -> fst (SpecSession.lifecycle w (res_map f o)) = Ok v ->
             exists b x, v = PDict [("success", PBool b); ("result", PStr x)]).
  { intros o f v Hs H. rewrite spec_lifecycle_run in H.
    destruct (w_create w) as [[sid u]|]; [|discriminate].
    destruct (w_delete w); [|discriminate].
    destruct o as [b|e]; cbn in H; inversion H.
    destruct (Hs b) as [x Hx]. exists b, x. exact Hx. }
  assert (Hopen : forall (o : res bool) rr (x : bool -> string) v,
             fst (match KBS.lifecycle w rr o with
                  | (Ok b, st') => (Ok (PDict [("success", PBool b); ("result", PStr (x b));
                                               ("replay_url", opt_str (replay_view_url (sess st')))]), st')
                  | (Raise e, st') => (Raise e, st')
                  end) = Ok v ->
             exists b x u, v = PDict [("success", PBool b); ("result", PStr x); ("replay_url", opt_str u)]).
  { intros o rr x v. destruct (KBS.lifecycle w rr o) as [[b|e] st']; cbn; intros H;
      inversion H; eauto. }
  split; [|split; [|split; [|split; [|split; [|split]]]]].
  - intros fr errs inp. exact (proj2 (proj2 (bu_run w fr errs inp))).
  - intros nav v. pose proof (captcha_run w nav) as H.
    destruct (w_create w) as [[sid u]|]; rewrite H; [|discriminate].
    destruct (w_delete w), nav; cbn; intros E; inversion E; reflexivity.
  - intros a p v. destruct (cua_run w a p) as [H|[(_ & H)|(sid & u & _ & H)]]; rewrite H;
      [discriminate | discriminate |].
    destruct (w_delete w); cbn [fst]; [|discriminate]. intros E.
    destruct (run_agent_ok_inv a v E) as (_ & _ & items & Ht & Hr).
    destruct (result_of_response_ok items v Hr) as (content & r & Hc & Hv & Hcase).
    exists items, content, r. split; [exact Ht|]. split; [exact Hc|]. split; [exact Hv|].
    destruct Hcase as [Htext|(Hs & _)]; [left; exact Htext | right; eauto].
  - intros o p v. destruct (oagi_default_run w o p) as [[e H]|(f & H & Hs)]; rewrite H;
      [discriminate | apply (Hoagi o f v Hs)].
  - intros o p v. destruct (oagi_tasker_run w o p) as [[e H]|(f & H & Hs)]; rewrite H;
      [discriminate | apply (Hoagi o f v Hs)].
  - intros o p v. destruct (openagi_default_run w o p) as [[e H]|(rr & x & H)]; rewrite H;
      [discriminate | apply Hopen].
  - intros o p v. destruct (openagi_tasker_run w o p) as [[e H]|(rr & x & H)]; rewrite H;
      [discriminate | apply Hopen].
Qed.

Lemma actions_result_shapes_witness :
  fst (run (OpenagiCua.oagi_default_task w_ok (Ok true) (Some [("instruction", PStr "go")])))
  = Ok (PDict [("success", PBool true);
               ("result", PStr "Task completed with model lux-actor-1. Success: True");
               ("replay_url", PNone)])
  /\ exists b x u,
       PDict [("success", PBool true);
              ("result", PStr "Task completed with model lux-actor-1. Success: True");
              ("replay_url", PNone)]
       = PDict [("success", PBool b); ("result", PStr x); ("replay_url", opt_str u)].
Proof.
  assert (H : fst (run (OpenagiCua.oagi_default_task w_ok (Ok true) (Some [("instruction", PStr "go")])))
              = Ok (PDict [("success", PBool true);
                           ("result", PStr "Task completed with model lux-actor-1. Success: True");
                           ("replay_url", PNone)])) by (vm_compute; reflexivity).
  split; [exact H|].
  exact (proj1 (proj2 (proj2 (proj2 (proj2 (proj2 (actions_result_shapes w_ok))))))
           (Ok true) (Some [("instruction", PStr "go")]) _ H).
Defined.

(** C6 counterexample: bu-task returns [{"final_result": ...}] and the
    captcha action returns [None], neither with a success or result field;
    cua-task returns [{"result": 5}] when the agent's text block holds the
    integer 5. *)
Lemma bu_and_captcha_results_other_shapes :
  fst (run (Bu.bu_task w_ok (Ok (Some "done")) [] (Some [("task", PStr "t")])))
  = Ok (PDict [("final_result", PStr "done")])
  /\ fst (run (Captcha.test_captcha_solver w_ok (Ok tt))) = Ok PNone
  /\ fst (run (OpenaiCua.cua_task w_ok (turn_text (PInt 5)) (Some [("task", PStr "t")])))
     = Ok (PDict [("result", PInt 5)]).
Proof. vm_compute. split; [|split]; reflexivity. Qed.

(* ------------------------------------------------------------------ *)
(** ** Further properties of the code *)

Lemma truthy_dict_lookup (d : dict) (k : string) (v : pyval) :
  dict_lookup d k = Some v -> truthy (PDict d) = true.
Proof. destruct d; [discriminate|reflexivity]. Qed.

(** The only exception [run_agent] raises of its own is
    [ValueError("No response from agent")], exactly when the browser was
    entered and closed normally and the agent's turn returned no response
    item or a last item without ["content"]. Every other exception comes
    from entering the browser, from [__exit__] (which replaces the block's
    outcome), or from the block's calls (goto, [Agent(...)],
    [run_full_turn]). *)
Theorem openai_run_agent_no_response (a : OpenaiCua.AgentTurn) (e : exn) :
  OpenaiCua.run_agent a = Raise e
  <-> OpenaiCua.at_browser a = Raise e
      \/ (OpenaiCua.at_browser a = Ok tt /\ OpenaiCua.at_exit a = Raise e)
      \/ (OpenaiCua.at_browser a = Ok tt /\ OpenaiCua.at_exit a = Ok tt
          /\ OpenaiCua.at_turn a = Raise e)
      \/ (OpenaiCua.at_browser a = Ok tt /\ OpenaiCua.at_exit a = Ok tt
          /\ e = ValueError "No response from agent"
          /\ exists items, OpenaiCua.at_turn a = Ok items
                           /\ (items = [] \/ dict_lookup (last items []) "content" = None)).
Proof.
  destruct a as [b t x]. unfold OpenaiCua.run_agent.
  cbn [OpenaiCua.at_browser OpenaiCua.at_exit OpenaiCua.at_turn].
  destruct b as [[]|eb].
  2: { split; [intros H; inversion H; subst; left; reflexivity|].
       intros [H|[(H & _)|[(H & _)|(H & _)]]]; congruence. }
  destruct x as [[]|ex].
  2: { split; [intros H; inversion H; subst; right; left; split; reflexivity|].
       intros [H|[(_ & H)|[(_ & H & _)|(_ & H & _)]]]; congruence. }
  destruct t as [items|et].
  2: { split; [intros H; inversion H; subst; right; right; left; repeat split|].
       intros [H|[(_ & H)|[(_ & _ & H)|(_ & _ & _ & items & H & _)]]]; congruence. }
  unfold OpenaiCua.result_of_response.
  split.
  - intros H. right. right. right. split; [reflexivity|]. split; [reflexivity|].
    destruct items as [|i items'].
    + inversion H. split; [reflexivity|]. exists []. auto.
    + destruct (dict_lookup (last (i :: items') []) "content") eqn:E; [discriminate|].
      inversion H. split; [reflexivity|]. exists (i :: items'). auto.
  - intros [H|[(_ & H)|[(_ & _ & H)|(_ & _ & He & items0 & H & Hn)]]];
      [discriminate | discriminate | discriminate |].
    inversion H; subst items0 e.
    destruct Hn as [-> | Hn]; [reflexivity|].
    destruct items as [|i items']; [reflexivity|]. rewrite Hn. reflexivity.
Qed.

(** When [run_agent] returns, the agent's turn gave response items and the
    value is [{"result": r}]: [r] is the ["text"] value of the first block
    when the last item's content is a list starting with a dict that has a
    ["text"] key (whatever its type), and [str(content)] otherwise (the
    content itself when it is a string, Python's [repr] of it when it is a
    list or a dict). *)
Theorem openai_run_agent_result (a : OpenaiCua.AgentTurn) (v : pyval) :
  OpenaiCua.run_agent a = Ok v ->
  exists items content r,
    OpenaiCua.at_turn a = Ok items
    /\ dict_lookup (last items []) "content" = Some content
    /\ v = PDict [("result", r)]
    /\ ((exists block rest, content = PList (PDict block :: rest)
                            /\ dict_lookup block "text" = Some r)
        \/ (r = PStr (py_str content)
            /\ forall block rest, content = PList (PDict block :: rest) ->
                                  dict_lookup block "text" = None)).
Proof.
  intros H. destruct (run_agent_ok_inv a v H) as (_ & _ & items & Ht & Hr).
  destruct (result_of_response_ok items v Hr) as (content & r & Hc & Hv & Hcase).
  exists items, content, r. auto.
Qed.

(** The refusal's content printed as Python prints the list: the string
    holding a ['] is quoted with the double quote. *)
Lemma openai_run_agent_result_witness :
  OpenaiCua.run_agent turn_refusal
  = Ok (PDict [("result", PStr ("[{'type': 'refusal', 'refusal': "
                                ++ String dq ("I can't" ++ String dq "}]")))])
  /\ exists items content r,
    OpenaiCua.at_turn turn_refusal = Ok items
    /\ dict_lookup (last items []) "content" = Some content
    /\ PDict [("result", PStr ("[{'type': 'refusal', 'refusal': "
                               ++ String dq ("I can't" ++ String dq "}]")))]
       = PDict [("result", r)]
    /\ ((exists block rest, content = PList (PDict block :: rest)
                            /\ dict_lookup block "text" = Some r)
        \/ (r = PStr (py_str content)
            /\ forall block rest, content = PList (PDict block :: rest) ->
                                  dict_lookup block "text" = None)).
Proof.
  assert (H : OpenaiCua.run_agent turn_refusal
              = Ok (PDict [("result", PStr ("[{'type': 'refusal', 'refusal': "
                                            ++ String dq ("I can't" ++ String dq "}]")))]))
    by (vm_compute; reflexivity).
  split; [exact H|]. exact (openai_run_agent_result _ _ H).
Defined.

(** The tasker actions of oagi-cua and openagi-computer-use: with a usable
    task but ["todos"] missing or not a non-empty list, they raise
    [ValueError("todos must be a non-empty list of steps")] before any
    platform call. *)
Theorem tasker_todos_required (w : World) (o : res bool) (d : dict) (t : pyval) :
  dict_lookup d "task" = Some t -> truthy t = true ->
  (forall l, dict_lookup d "todos" = Some (PList l) -> l = []) ->
  run (OagiCua.oagi_tasker_task w o (Some d))
  = (Raise (ValueError "todos must be a non-empty list of steps"), init_st (new_session false))
  /\ run (OpenagiCua.oagi_tasker_task w o (Some d))
     = (Raise (ValueError "todos must be a non-empty list of steps"), init_st (new_session false)).
Proof.
  intros Ht Htr Hl.
  assert (Hreq : (truthy (PDict d) && truthy (dict_get d "task" PNone))%bool = true).
  { rewrite (truthy_dict_lookup d "task" t Ht), dict_get_lookup, Ht. exact Htr. }
  assert (Htodo : (truthy (dict_get d "todos" PNone) && is_list (dict_get d "todos" PNone))%bool
                  = false).
  { rewrite dict_get_lookup. destruct (dict_lookup d "todos") as [v|] eqn:E; [|reflexivity].
    destruct v as [| | | | l |]; cbn [is_list]; rewrite ?andb_false_r; try reflexivity.
    rewrite (Hl l eq_refl). reflexivity. }
  unfold run, OagiCua.oagi_tasker_task, OpenagiCua.oagi_tasker_task, require_field.
  rewrite Hreq, !bind_ret_l, Htodo. split; reflexivity.
Qed.

Lemma tasker_todos_required_witness :
  run (OagiCua.oagi_tasker_task w_ok (Ok true) (Some [("task", PStr "t"); ("todos", PList [])]))
  = (Raise (ValueError "todos must be a non-empty list of steps"), init_st (new_session false))
  /\ run (OpenagiCua.oagi_tasker_task w_ok (Ok true) (Some [("task", PStr "t"); ("todos", PList [])]))
     = (Raise (ValueError "todos must be a non-empty list of steps"), init_st (new_session false)).
Proof.
  apply (tasker_todos_required w_ok (Ok true) _ (PStr "t")); [reflexivity | reflexivity |].
  intros l H. cbn in H. inversion H. reflexivity.
Defined.

(** Whatever path [__aexit__] took, a normal return went through its three
    closing assignments. *)
Lemma aexit_ok_cleared (w : World) (st st' : St) :
  KBS.__aexit__ w st = (Ok tt, st') ->
  session_id (sess st') = None /\ replay_id (sess st') = None /\ _kernel (sess st') = None.
Proof.
  unfold KBS.__aexit__. rewrite bind_run. cbv beta iota delta [get_sess].
  rewrite bind_run.
  lazymatch goal with |- (match ?m with (r, s) => _ end = _) -> _ =>
    destruct m as [[[]|e] st1] end.
  - cbv [bind modify set_session_id set_replay_id set_kernel]. intros H; inversion H; cbn; auto.
  - discriminate.
Qed.

(** [__aexit__] on a session without a client or a session id. *)
Lemma aexit_no_platform (w : World) (st : St) :
  _kernel (sess st) = None \/ session_id (sess st) = None ->
  KBS.__aexit__ w st = (Ok tt, mkSt (reset (sess st)) (trace st) (clock st) (lists st)).
Proof.
  intros H. unfold KBS.__aexit__. cbn [bind get_sess].
  destruct (_kernel (sess st)) as [k|]; [destruct H as [H|H]; [discriminate|rewrite H]|];
    reflexivity.
Qed.

(** [__aexit__] is harmless to repeat: once it returned normally, calling it
    again returns normally and changes nothing (no platform call, no
    field). On a session without a client or a session id (never entered,
    or already exited) it makes no platform call and only clears
    [session_id], [replay_id] and [_kernel]. *)
Theorem kbs_aexit_repeat_noop (w : World) :
  (forall st st', KBS.__aexit__ w st = (Ok tt, st') -> KBS.__aexit__ w st' = (Ok tt, st'))
  /\ (forall st, _kernel (sess st) = None \/ session_id (sess st) = None ->
        KBS.__aexit__ w st = (Ok tt, mkSt (reset (sess st)) (trace st) (clock st) (lists st))).
Proof.
  split.
  - intros st st' H. destruct (aexit_ok_cleared w st st' H) as (Hs & Hr & Hk).
    rewrite (aexit_no_platform w st' (or_introl Hk)).
    destruct st' as [[c sid lv rid rv k] t cl ls]. cbn in Hs, Hr, Hk. subst.
    reflexivity.
  - intros st H. exact (aexit_no_platform w st H).
Qed.

Lemma kbs_aexit_repeat_noop_witness :
  KBS.__aexit__ w_ok st_recording_after_task
  = (Ok tt, snd (KBS.__aexit__ w_ok st_recording_after_task))
  /\ KBS.__aexit__ w_ok (snd (KBS.__aexit__ w_ok st_recording_after_task))
     = (Ok tt, snd (KBS.__aexit__ w_ok st_recording_after_task))
  /\ KBS.__aexit__ w_ok (init_st (new_session true))
     = (Ok tt, mkSt (reset (new_session true)) [] 0 0).
Proof.
  assert (H : KBS.__aexit__ w_ok st_recording_after_task
              = (Ok tt, snd (KBS.__aexit__ w_ok st_recording_after_task)))
    by (vm_compute; reflexivity).
  split; [exact H|]. split.
  - exact (proj1 (kbs_aexit_repeat_noop w_ok) _ _ H).
  - exact (proj2 (kbs_aexit_repeat_noop w_ok) (init_st (new_session true)) (or_introl eq_refl)).
Defined.

(** When [replays.start] raises inside [__aenter__], the [async with]
    block raises that error before the task runs, and [__aexit__] never
    runs: the browser session just created is not deleted. *)
Theorem kbs_replay_start_failure_session_not_deleted {A} (w : World) (o : res A) (sid u : string) :
  w_create w = Some (sid, u) -> sid <> "" -> w_start w = None ->
  fst (KBS.lifecycle w true o) = Raise (PlatformError "browsers.replays.start")
  /\ count_create (trace (snd (KBS.lifecycle w true o))) = 1
  /\ count_delete (trace (snd (KBS.lifecycle w true o))) = 0
  /\ ~ In EvAgent (trace (snd (KBS.lifecycle w true o))).
Proof.
  intros Hc Hsid Hst.
  destruct (lifecycle_start_fails w o sid u Hc Hsid Hst) as [Ht Hf].
  rewrite Ht, Hf. split; [reflexivity|]. split; [reflexivity|]. split; [reflexivity|].
  intros [H|[H|[]]]; discriminate.
Qed.

Lemma kbs_replay_start_failure_session_not_deleted_witness :
  fst (KBS.lifecycle w_start_fails true (Ok tt)) = Raise (PlatformError "browsers.replays.start")
  /\ count_create (trace (snd (KBS.lifecycle w_start_fails true (Ok tt)))) = 1
  /\ count_delete (trace (snd (KBS.lifecycle w_start_fails true (Ok tt)))) = 0
  /\ ~ In EvAgent (trace (snd (KBS.lifecycle w_start_fails true (Ok tt)))).
Proof.
  apply (kbs_replay_start_failure_session_not_deleted w_start_fails (Ok tt) "s1" "https://live/s1");
    [reflexivity | discriminate | reflexivity].
Defined.

(** When the platform returns an empty session id, both hooks skip all
    platform work after the creation: the task runs and its outcome is
    returned, but no replay call is made and the session is never deleted. *)
Theorem kbs_empty_session_id_skips_teardown {A} (w : World) (rr : bool) (o : res A) (u : string) :
  w_create w = Some ("", u) ->
  fst (KBS.lifecycle w rr o) = o
  /\ In EvAgent (trace (snd (KBS.lifecycle w rr o)))
  /\ forallb (fun e => negb (replay_call e)) (trace (snd (KBS.lifecycle w rr o))) = true
  /\ count_delete (trace (snd (KBS.lifecycle w rr o))) = 0.
Proof.
  intros Hc. destruct (lifecycle_empty_sid w rr o u Hc) as [Ht Hf].
  rewrite Ht, Hf. split; [reflexivity|]. split; [right; left; reflexivity|].
  split; reflexivity.
Qed.

Lemma kbs_empty_session_id_skips_teardown_witness :
  fst (KBS.lifecycle w_empty_sid true (Ok tt)) = Ok tt
  /\ In EvAgent (trace (snd (KBS.lifecycle w_empty_sid true (Ok tt))))
  /\ forallb (fun e => negb (replay_call e)) (trace (snd (KBS.lifecycle w_empty_sid true (Ok tt)))) = true
  /\ count_delete (trace (snd (KBS.lifecycle w_empty_sid true (Ok tt)))) = 0.
Proof.
  apply (kbs_empty_session_id_skips_teardown w_empty_sid true (Ok tt) "https://live/s1").
  reflexivity.
Defined.

(** A failing replay download (or file write) is caught and reported with
    ["Error downloading replay"]; teardown still deletes the session as its
    last call, and the task's outcome is returned (or the deletion's
    error). *)
Theorem kbs_download_failure_still_deletes {A} (w : World) (o : res A) (sid u rid : string) :
  w_create w = Some (sid, u) -> sid <> "" -> w_start w = Some rid -> rid <> "" ->
  w_stop w = true -> (w_download w && w_write w)%bool = false ->
  exists pre,
    trace (snd (KBS.lifecycle w true o)) = pre ++ [EvDelete sid]
    /\ In (EvReplayDownload rid sid) pre
    /\ In (EvPrint "Error downloading replay") pre
    /\ fst (KBS.lifecycle w true o)
       = (if w_delete w then o else Raise (PlatformError "browsers.delete_by_id")).
Proof.
  intros Hc Hsid Hst Hrid Hstop Hdl.
  destruct (lifecycle_deletes w true o sid u Hc Hsid (fun _ H => ltac:(congruence)) (fun _ => Hstop))
    as (pre & Hpre & _ & _ & _ & Hf).
  exists pre. split; [exact Hpre|]. split; [|split; [|exact Hf]].
  all: destruct (lifecycle_trace_cases w true o)
      as [[Hn _]|[(u' & Hn & _)|[(sid' & u' & _ & _ & _ & Hn & _)
         |[(sid' & u' & _ & _ & [Hn|Hn] & _)|(sid' & u' & rid' & Hc' & _ & _ & Hst' & _ & tail & Ht & Htl)]]]];
    try congruence.
  all: rewrite Hc in Hc'; rewrite Hst in Hst'; inversion Hc'; inversion Hst'; subst sid' u' rid'.
  all: destruct Htl as [(Hn & _)|(_ & n & b & Htail & _)]; [congruence|].
  all: rewrite Htail, Hpre, !app_assoc in Ht; apply app_inj_tail in Ht as [Ht _]; rewrite Ht.
  all: apply in_or_app; right; unfold replay_teardown_events; rewrite Hdl.
  all: rewrite !in_app_iff; right; right; right; cbn; auto.
Qed.

Lemma kbs_download_failure_still_deletes_witness :
  exists pre,
    trace (snd (KBS.lifecycle w_download_fails true (Ok tt))) = pre ++ [EvDelete "s1"]
    /\ In (EvReplayDownload "r1" "s1") pre
    /\ In (EvPrint "Error downloading replay") pre
    /\ fst (KBS.lifecycle w_download_fails true (Ok tt))
       = (if w_delete w_download_fails then Ok tt else Raise (PlatformError "browsers.delete_by_id")).
Proof.
  apply (kbs_download_failure_still_deletes w_download_fails (Ok tt) "s1" "https://live/s1" "r1");
    first [reflexivity | discriminate].
Defined.

(** Without recording, the wrapper never sets [replay_view_url] and makes
    no replay call. *)
Lemma lifecycle_no_recording {A} (w : World) (o : res A) :
  replay_view_url (sess (snd (KBS.lifecycle w false o))) = None
  /\ forallb (fun e => negb (replay_call e)) (trace (snd (KBS.lifecycle w false o))) = true.
Proof.
  destruct (w_create w) as [[sid u]|] eqn:Hc.
  - destruct (String.eqb sid "") eqn:E.
    + apply String.eqb_eq in E. subst sid.
      run_m. rewrite Hc. run_m. cbv [String.eqb]. run_all. destruct o; split; reflexivity.
    + apply String.eqb_neq in E.
      rewrite (lifecycle_run w false o sid u Hc E) by discriminate. rewrite snd_combine.
      erewrite (aexit_no_replay w _ (w_kernel w) sid);
        [| reflexivity | reflexivity | exact E | reflexivity].
      unfold delete_outcome. destruct (w_delete w); split; reflexivity.
  - rewrite (lifecycle_create_fails w false o Hc). split; reflexivity.
Qed.

Lemma openagi_default_run_some (w : World) (o : res bool) (d : dict) :
  (exists e, run (OpenagiCua.oagi_default_task w o (Some d)) = (Raise e, init_st (new_session false)))
  \/ exists x : bool -> string,
       run (OpenagiCua.oagi_default_task w o (Some d))
       = match KBS.lifecycle w (truthy (dict_get d "record_replay" (PBool false))) o with
         | (Ok b, st') => (Ok (PDict [("success", PBool b); ("result", PStr (x b));
                                      ("replay_url", opt_str (replay_view_url (sess st')))]), st')
         | (Raise e, st') => (Raise e, st')
         end.
Proof.
  unfold run, OpenagiCua.oagi_default_task, require_field.
  destruct (truthy (PDict d) && truthy (dict_get d "instruction" PNone))%bool;
    [|left; eexists; reflexivity].
  rewrite bind_ret_l. unfold getitem.
  destruct (dict_lookup d "instruction"); [|left; eexists; reflexivity].
  rewrite bind_ret_l. cbv zeta. rewrite bind_run, with_new_session_fresh.
  right. eexists. unfold KBS.lifecycle.
  destruct (KBS.async_with w (KBS.agent_run o)
              (init_st (new_session (truthy (dict_get d "record_replay" (PBool false))))))
    as [[b|e] st']; reflexivity.
Qed.

Lemma openagi_tasker_run_some (w : World) (o : res bool) (d : dict) :
  (exists e, run (OpenagiCua.oagi_tasker_task w o (Some d)) = (Raise e, init_st (new_session false)))
  \/ exists x : bool -> string,
       run (OpenagiCua.oagi_tasker_task w o (Some d))
       = match KBS.lifecycle w (truthy (dict_get d "record_replay" (PBool false))) o with
         | (Ok b, st') => (Ok (PDict [("success", PBool b); ("result", PStr (x b));
                                      ("replay_url", opt_str (replay_view_url (sess st')))]), st')
         | (Raise e, st') => (Raise e, st')
         end.
Proof.
  unfold run, OpenagiCua.oagi_tasker_task, require_field.
  destruct (truthy (PDict d) && truthy (dict_get d "task" PNone))%bool;
    [|left; eexists; reflexivity].
  rewrite bind_ret_l.
  destruct (truthy (dict_get d "todos" PNone) && is_list (dict_get d "todos" PNone))%bool;
    [|left; eexists; reflexivity].
  rewrite bind_ret_l. unfold getitem.
  destruct (dict_lookup d "task"); [|left; eexists; reflexivity].
  rewrite bind_ret_l.
  destruct (dict_lookup d "todos"); [|left; eexists; reflexivity].
  rewrite bind_ret_l. cbv zeta. rewrite bind_run, with_new_session_fresh.
  right. eexists. unfold KBS.lifecycle.
  destruct (KBS.async_with w (KBS.agent_run o)
              (init_st (new_session (truthy (dict_get d "record_replay" (PBool false))))))
    as [[b|e] st']; reflexivity.
Qed.

(** The openagi actions with ["record_replay"] absent or falsy in the
    payload make no replay call, and when they return, ["replay_url"] is
    [None]. *)
Theorem openagi_no_recording_no_replay (w : World) (o : res bool) (d : dict) :
  (dict_lookup d "record_replay" = None
   \/ exists v, dict_lookup d "record_replay" = Some v /\ truthy v = false) ->
  (forallb (fun e => negb (replay_call e))
     (trace (snd (run (OpenagiCua.oagi_default_task w o (Some d))))) = true
   /\ forall v, fst (run (OpenagiCua.oagi_default_task w o (Some d))) = Ok v ->
        exists b x, v = PDict [("success", PBool b); ("result", PStr x); ("replay_url", PNone)])
  /\ (forallb (fun e => negb (replay_call e))
        (trace (snd (run (OpenagiCua.oagi_tasker_task w o (Some d))))) = true
      /\ forall v, fst (run (OpenagiCua.oagi_tasker_task w o (Some d))) = Ok v ->
           exists b x, v = PDict [("success", PBool b); ("result", PStr x); ("replay_url", PNone)]).
Proof.
  intros Hrr.
  assert (Hf : truthy (dict_get d "record_replay" (PBool false)) = false).
  { rewrite dict_get_lookup. destruct Hrr as [-> | (v & -> & Hv)]; [reflexivity | exact Hv]. }
  destruct (lifecycle_no_recording w o) as [Hu Hn].
  assert (Hgen : forall (x : bool -> string),
    forallb (fun e => negb (replay_call e))
      (trace (snd (match KBS.lifecycle w false o with
         | (Ok b, st') => (Ok (PDict [("success", PBool b); ("result", PStr (x b));
                                      ("replay_url", opt_str (replay_view_url (sess st')))]), st')
         | (Raise e, st') => (Raise e, st')
         end))) = true
    /\ forall v, fst (match KBS.lifecycle w false o with
         | (Ok b, st') => (Ok (PDict [("success", PBool b); ("result", PStr (x b));
                                      ("replay_url", opt_str (replay_view_url (sess st')))]), st')
         | (Raise e, st') => (Raise e, st')
         end) = Ok v ->
       exists b x, v = PDict [("success", PBool b); ("result", PStr x); ("replay_url", PNone)]).
  { intros x. destruct (KBS.lifecycle w false o) as [[b|e] st']; cbn in Hu, Hn |- *.
    - split; [exact Hn|]. intros v H. inversion H. rewrite Hu. eauto.
    - split; [exact Hn | discriminate]. }
  split.
  - destruct (openagi_default_run_some w o d) as [[e H]|(x & H)]; rewrite H;
      [split; [reflexivity|discriminate] | rewrite Hf; apply Hgen].
  - destruct (openagi_tasker_run_some w o d) as [[e H]|(x & H)]; rewrite H;
      [split; [reflexivity|discriminate] | rewrite Hf; apply Hgen].
Qed.

Lemma openagi_no_recording_no_replay_witness :
  forallb (fun e => negb (replay_call e))
    (trace (snd (run (OpenagiCua.oagi_default_task w_ok (Ok true) (Some [("instruction", PStr "go")]))))) = true.
Proof.
  exact (proj1 (proj1 (openagi_no_recording_no_replay w_ok (Ok true) [("instruction", PStr "go")]
                         (or_introl eq_refl)))).
Defined.

(** test-captcha-solver: once the browser is created, the navigation runs
    and the session is deleted as the last call whatever the navigation
    does; a navigation error is re-raised after the deletion (replaced by
    the deletion's own error if that call raises). *)
Theorem captcha_deletes_after_navigation (w : World) (nav : res unit) (sid u : string) :
  w_create w = Some (sid, u) ->
  trace (snd (run (Captcha.test_captcha_solver w nav))) = [EvCreate; EvAgent; EvDelete sid]
  /\ fst (run (Captcha.test_captcha_solver w nav))
     = (if w_delete w then match nav with Ok _ => Ok PNone | Raise e => Raise e end
        else Raise (PlatformError "browsers.delete_by_id")).
Proof.
  intros Hc. pose proof (captcha_run w nav) as H. rewrite Hc in H. rewrite H.
  split; [reflexivity|]. destruct (w_delete w), nav; reflexivity.
Qed.

Lemma captcha_deletes_after_navigation_witness :
  trace (snd (run (Captcha.test_captcha_solver w_ok (Raise AgentError)))) = [EvCreate; EvAgent; EvDelete "s1"]
  /\ fst (run (Captcha.test_captcha_solver w_ok (Raise AgentError)))
     = (if w_delete w_ok then match (Raise AgentError : res unit) with Ok _ => Ok PNone | Raise e => Raise e end
        else Raise (PlatformError "browsers.delete_by_id")).
Proof. apply (captcha_deletes_after_navigation w_ok (Raise AgentError) "s1" "https://live/s1"). reflexivity. Defined.

(** cua-task with a usable task: once the browser is created, the agent
    runs and the session is deleted as the last call whatever the agent
    does; the outcome of [run_agent] is returned, its error (for instance
    [ValueError("No response from agent")]) re-raised after the deletion,
    unless the deletion raises. *)
Theorem cua_task_deletes_after_agent (w : World) (a : OpenaiCua.AgentTurn) (d : dict) (t : pyval)
    (sid u : string) :
  dict_lookup d "task" = Some t -> truthy t = true -> w_create w = Some (sid, u) ->
  trace (snd (run (OpenaiCua.cua_task w a (Some d)))) = [EvCreate; EvAgent; EvDelete sid]
  /\ fst (run (OpenaiCua.cua_task w a (Some d)))
     = (if w_delete w then OpenaiCua.run_agent a
        else Raise (PlatformError "browsers.delete_by_id")).
Proof.
  intros Ht Htr Hc.
  assert (Hreq : (truthy (PDict d) && truthy (dict_get d "task" PNone))%bool = true).
  { rewrite (truthy_dict_lookup d "task" t Ht), dict_get_lookup, Ht. exact Htr. }
  unfold run, OpenaiCua.cua_task, require_field. rewrite Hreq, bind_ret_l.
  unfold KBS.browsers_create, KBS.delete_by_id, KBS.agent_run.
  cbv [bind ret raise emit of_option try_finally lift check init_st sess trace clock lists].
  rewrite Hc. destruct (OpenaiCua.run_agent a), (w_delete w); split; reflexivity.
Qed.

Lemma cua_task_deletes_after_agent_witness :
  trace (snd (run (OpenaiCua.cua_task w_ok turn_no_response (Some [("task", PStr "t")]))))
  = [EvCreate; EvAgent; EvDelete "s1"]
  /\ fst (run (OpenaiCua.cua_task w_ok turn_no_response (Some [("task", PStr "t")])))
     = (if w_delete w_ok then OpenaiCua.run_agent turn_no_response
        else Raise (PlatformError "browsers.delete_by_id")).
Proof.
  apply (cua_task_deletes_after_agent w_ok turn_no_response _ (PStr "t") "s1" "https://live/s1");
    reflexivity.
Defined.

(** The oagi-cua actions (around the session wrapper modelled from the
    spec) return the agent's own success flag, and their result string
    reports the model (["lux-actor-1"] when the payload has no ["model"]
    key, [str] of the value otherwise, [None] included) or the task,
    followed by the flag written as Python prints it. *)
Theorem oagi_cua_result_reports_agent (w : World) (o : res bool) (d : dict) :
  (forall v, fst (run (OagiCua.oagi_default_task w o (Some d))) = Ok v ->
     exists b, o = Ok b
       /\ v = PDict [("success", PBool b);
                     ("result", PStr ("Task completed with model "
                                      ++ match dict_lookup d "model" with
                                         | Some m => py_str m
                                         | None => "lux-actor-1"
                                         end
                                      ++ ". Success: " ++ bool_str b))])
  /\ (forall v, fst (run (OagiCua.oagi_tasker_task w o (Some d))) = Ok v ->
       exists b t, o = Ok b /\ dict_lookup d "task" = Some t
         /\ v = PDict [("success", PBool b);
                       ("result", PStr ("TaskerAgent completed. Task: " ++ py_str t
                                        ++ ". Success: " ++ bool_str b))]).
Proof.
  split; intros v; unfold run, OagiCua.oagi_default_task, OagiCua.oagi_tasker_task, require_field.
  - destruct (truthy (PDict d) && truthy (dict_get d "instruction" PNone))%bool; [|discriminate].
    rewrite bind_ret_l. unfold getitem.
    destruct (dict_lookup d "instruction"); [|discriminate].
    rewrite bind_ret_l, spec_session_lifecycle, spec_lifecycle_run.
    destruct (w_create w) as [[sid u]|]; cbn [fst]; [|discriminate].
    destruct (w_delete w); [|discriminate].
    destruct o as [b|e]; cbn [res_map]; intros H; inversion H; subst v.
    exists b. split; [reflexivity|]. rewrite dict_get_lookup.
    destruct (dict_lookup d "model"); reflexivity.
  - destruct (truthy (PDict d) && truthy (dict_get d "task" PNone))%bool; [|discriminate].
    rewrite bind_ret_l.
    destruct (truthy (dict_get d "todos" PNone) && is_list (dict_get d "todos" PNone))%bool;
      [|discriminate].
    rewrite bind_ret_l. unfold getitem.
    destruct (dict_lookup d "task") as [t|]; [|discriminate].
    rewrite bind_ret_l.
    destruct (dict_lookup d "todos"); [|discriminate].
    rewrite bind_ret_l, spec_session_lifecycle, spec_lifecycle_run.
    destruct (w_create w) as [[sid u]|]; cbn [fst]; [|discriminate].
    destruct (w_delete w); [|discriminate].
    destruct o as [b|e]; cbn [res_map]; intros H; inversion H; subst v.
    exists b, t. auto.
Qed.

Lemma oagi_cua_result_reports_agent_witness :
  fst (run (OagiCua.oagi_default_task w_ok (Ok false)
              (Some [("instruction", PStr "go"); ("model", PList [PStr "it's"])])))
  = Ok (PDict [("success", PBool false);
               ("result", PStr ("Task completed with model [" ++ String dq ("it's"
                                ++ String dq "]. Success: False")))])
  /\ exists b, (Ok false : res bool) = Ok b
     /\ PDict [("success", PBool false);
               ("result", PStr ("Task completed with model [" ++ String dq ("it's"
                                ++ String dq "]. Success: False")))]
        = PDict [("success", PBool b);
                 ("result", PStr ("Task completed with model "
                                  ++ match dict_lookup [("instruction", PStr "go");
                                                        ("model", PList [PStr "it's"])] "model" with
                                     | Some m => py_str m
                                     | None => "lux-actor-1"
                                     end
                                  ++ ". Success: " ++ bool_str b))].
Proof.
  assert (H : fst (run (OagiCua.oagi_default_task w_ok (Ok false)
                          (Some [("instruction", PStr "go"); ("model", PList [PStr "it's"])])))
              = Ok (PDict [("success", PBool false);
                           ("result", PStr ("Task completed with model [" ++ String dq ("it's"
                                            ++ String dq "]. Success: False")))]))
    by (vm_compute; reflexivity).
  split; [exact H|].
  exact (proj1 (oagi_cua_result_reports_agent w_ok (Ok false) _) _ H).
Defined.

(** The URL [_stop_and_download_replay] leaves is the previous one or the
    view URL of a listed replay with the session's replay id. *)
Lemma stop_and_download_url (w : World) (st st' : St) (k : Kernel) (sid rid : string) :
  _kernel (sess st) = Some k -> session_id (sess st) = Some sid ->
  replay_id (sess st) = Some rid -> sid <> "" -> rid <> "" ->
  KBS._stop_and_download_replay w st = (Ok tt, st') ->
  replay_view_url (sess st') = replay_view_url (sess st)
  \/ exists n l r, w_list w n = Some l /\ In r l /\ ri_replay_id r = rid
                   /\ replay_view_url (sess st') = ri_replay_view_url r.
Proof.
  intros Hk Hs Hr Hsid Hrid.
  apply String.eqb_neq in Hsid, Hrid.
  unfold KBS._stop_and_download_replay.
  cbn [bind get_sess]. rewrite Hk, Hs, Hr. cbn [truthy_opt]. rewrite Hsid, Hrid.
  cbn [negb orb]. unfold KBS.replays_stop, check.
  destruct (w_stop w); cbn [bind emit raise ret sleep now]; [|discriminate].
  cbn [sess trace clock lists].
  set (st2 := mkSt (sess st) ((trace st ++ [EvReplayStop rid sid]) ++ [EvSleep 2000])
                   (clock st + 2000)%N (lists st)).
  destruct (poll_loop_spec w 60 (clock st + 2000) rid sid st2) as
      (b & n & st3 & Hrun & _ & _ & _ & _ & _ & Hb).
  { unfold st2; cbn [clock]. lia. }
  { unfold st2; cbn [clock]. rewrite N.sub_diag. unfold KBS.max_wait. lia. }
  rewrite bind_run, Hrun.
  unfold KBS.download_replay, try_except, KBS.replays_download, check.
  destruct b, (w_download w), (w_write w);
    cbn [bind emit ret raise get_sess sess]; intros H; inversion H; subst st'; cbn [sess];
    [ destruct Hb as (l & r & Hl & Hin & Hid & Hu); right; exists (lists st3 - 1)%nat, l, r; auto
    | destruct Hb as (l & r & Hl & Hin & Hid & Hu); right; exists (lists st3 - 1)%nat, l, r; auto
    | destruct Hb as (l & r & Hl & Hin & Hid & Hu); right; exists (lists st3 - 1)%nat, l, r; auto
    | destruct Hb as (l & r & Hl & Hin & Hid & Hu); right; exists (lists st3 - 1)%nat, l, r; auto
    | left; destruct Hb as [_ Hu]; exact Hu
    | left; destruct Hb as [_ Hu]; exact Hu
    | left; destruct Hb as [_ Hu]; exact Hu
    | left; destruct Hb as [_ Hu]; exact Hu ].
Qed.

Lemma aexit_url (w : World) (st st' : St) :
  KBS.__aexit__ w st = (Ok tt, st') ->
  replay_view_url (sess st') = replay_view_url (sess st)
  \/ exists rid n l r, replay_id (sess st) = Some rid /\ w_list w n = Some l /\ In r l
                       /\ ri_replay_id r = rid /\ replay_view_url (sess st') = ri_replay_view_url r.
Proof.
  destruct (_kernel (sess st)) as [k|] eqn:Hk.
  2: { rewrite (aexit_no_platform w st (or_introl Hk)). intros H; inversion H. left; reflexivity. }
  destruct (session_id (sess st)) as [sid|] eqn:Hs.
  2: { rewrite (aexit_no_platform w st (or_intror Hs)). intros H; inversion H. left; reflexivity. }
  destruct (String.eqb sid "") eqn:Esid.
  { unfold KBS.__aexit__. cbn [bind get_sess]. rewrite Hk, Hs. cbn [truthy_opt]. rewrite Esid.
    cbn. intros H; inversion H. left; reflexivity. }
  apply String.eqb_neq in Esid as Esid'.
  destruct (record_replay (cfg (sess st)) && truthy_opt (replay_id (sess st)))%bool eqn:Hrr.
  2: { rewrite (aexit_no_replay w st k sid Hk Hs Esid' Hrr). unfold delete_outcome.
       destruct (w_delete w); intros H; inversion H. left; reflexivity. }
  apply andb_true_iff in Hrr as [Hrec Hrid].
  destruct (replay_id (sess st)) as [rid|] eqn:Hr; [|discriminate].
  cbn in Hrid. apply negb_true_iff in Hrid. apply String.eqb_neq in Hrid as Hrid'.
  unfold KBS.__aexit__.
  cbn [bind get_sess]. rewrite Hk, Hs. cbn [truthy_opt]. rewrite Esid. cbn [negb].
  rewrite Hrec, Hr. cbn [truthy_opt]. rewrite Hrid. cbn [negb andb].
  assert (Hgr : forall (B : Type) (k' : unit -> M B),
             bind (if (0 <? replay_grace_period (cfg (sess st)))%Z
                   then sleep (Z.to_N (replay_grace_period (cfg (sess st)))) else ret tt) k' st
             = k' tt (after_grace st)).
  { intros B k'. unfold after_grace. destruct (0 <? _)%Z; reflexivity. }
  rewrite bind_run, bind_run, Hgr.
  assert (Hg : sess (after_grace st) = sess st)
    by (unfold after_grace; destruct (0 <? _)%Z; reflexivity).
  destruct (KBS._stop_and_download_replay w (after_grace st)) as [[[]|e] st2] eqn:E;
    [|discriminate].
  apply (stop_and_download_url w (after_grace st) st2 k sid rid) in E;
    [| rewrite Hg; assumption | rewrite Hg; assumption | rewrite Hg; assumption
     | assumption | assumption].
  rewrite Hg in E.
  unfold KBS.delete_by_id, check. destruct (w_delete w); cbn; [|discriminate].
  intros H; inversion H; subst st'. cbn.
  destruct E as [E|(n & l & r & Hl & Hin & Hid & Hu)]; [left; exact E|].
  right. exists rid, n, l, r. auto.
Qed.

Lemma aenter_fields (w : World) (rr : bool) (st0 : St) :
  KBS.__aenter__ w (init_st (new_session rr)) = (Ok tt, st0) ->
  replay_view_url (sess st0) = None
  /\ (forall rid, replay_id (sess st0) = Some rid -> w_start w = Some rid).
Proof.
  destruct (w_create w) as [[sid u]|] eqn:Hc.
  - destruct (String.eqb sid "") eqn:E.
    + apply String.eqb_eq in E. subst sid.
      run_m. rewrite Hc. run_m. cbv [String.eqb].
      destruct rr; run_m; intros H; inversion H; cbn;
        (split; [reflexivity | intros rid Hr; discriminate]).
    + apply String.eqb_neq in E.
      rewrite (aenter_spec w rr (init_st (new_session rr)) sid u eq_refl Hc E).
      destruct rr; [destruct (w_start w) as [rid0|] eqn:Hst|];
        intros H; inversion H; subst; cbn;
        (split; [reflexivity|]); intros rid Hr; try discriminate.
      rewrite Hst in Hr. exact Hr.
  - run_m. rewrite Hc. discriminate.
Qed.

(** The replay URL a completed block leaves is [None] or the view URL of a
    listed replay whose id is the one [replays.start] returned. *)
Lemma lifecycle_url {A} (w : World) (rr : bool) (o : res A) (v : A) (st' : St) :
  KBS.lifecycle w rr o = (Ok v, st') ->
  replay_view_url (sess st') = None
  \/ exists rid n l r, w_start w = Some rid /\ w_list w n = Some l /\ In r l
                       /\ ri_replay_id r = rid /\ replay_view_url (sess st') = ri_replay_view_url r.
Proof.
  unfold KBS.lifecycle, KBS.async_with. rewrite bind_run.
  destruct (KBS.__aenter__ w (init_st (new_session rr))) as [[[]|e] st0] eqn:Ea; [|discriminate].
  destruct (aenter_fields w rr st0 Ea) as [Hu Hr].
  unfold try_finally.
  change (KBS.agent_run o st0) with (o, mkSt (sess st0) (trace st0 ++ [EvAgent]) (clock st0) (lists st0)).
  cbv beta iota zeta. intros H.
  match type of H with context [KBS.__aexit__ w ?s] =>
    destruct (KBS.__aexit__ w s) as [[[]|e] st2] eqn:Ex end;
    inversion H; subst.
  apply aexit_url in Ex. cbn [sess] in Ex.
  destruct Ex as [Ex|(rid & n & l & r & Hrid & Hl & Hin & Hid & Hu')].
  - left. congruence.
  - right. exists rid, n, l, r. auto.
Qed.

(** The openagi actions: a ["replay_url"] they return as a string is the
    view URL that [replays.list] reported for the very replay
    [replays.start] returned for this session. *)
Theorem openagi_replay_url_is_started_replay (w : World) (o : res bool) (p : option dict) :
  (forall b x url,
     fst (run (OpenagiCua.oagi_default_task w o p))
     = Ok (PDict [("success", PBool b); ("result", PStr x); ("replay_url", PStr url)]) ->
     exists rid n l r, w_start w = Some rid /\ w_list w n = Some l /\ In r l
                       /\ ri_replay_id r = rid /\ ri_replay_view_url r = Some url)
  /\ (forall b x url,
     fst (run (OpenagiCua.oagi_tasker_task w o p))
     = Ok (PDict [("success", PBool b); ("result", PStr x); ("replay_url", PStr url)]) ->
     exists rid n l r, w_start w = Some rid /\ w_list w n = Some l /\ In r l
                       /\ ri_replay_id r = rid /\ ri_replay_view_url r = Some url).
Proof.
  assert (Hgen : forall rr (y : bool -> string) b x url,
    fst (match KBS.lifecycle w rr o with
         | (Ok b, st') => (Ok (PDict [("success", PBool b); ("result", PStr (y b));
                                      ("replay_url", opt_str (replay_view_url (sess st')))]), st')
         | (Raise e, st') => (Raise e, st')
         end)
    = Ok (PDict [("success", PBool b); ("result", PStr x); ("replay_url", PStr url)]) ->
    exists rid n l r, w_start w = Some rid /\ w_list w n = Some l /\ In r l
                      /\ ri_replay_id r = rid /\ ri_replay_view_url r = Some url).
  { intros rr y b x url.
    destruct (KBS.lifecycle w rr o) as [[b'|e] st'] eqn:E; cbn [fst]; intros H; inversion H.
    destruct (replay_view_url (sess st')) as [url'|] eqn:Eu; cbn in *; [|discriminate].
    inversion H3; subst url'.
    destruct (lifecycle_url w rr o b' st' E) as [Hn|(rid & n & l & r & Hs & Hl & Hin & Hid & Hu)];
      [congruence|].
    exists rid, n, l, r. repeat split; auto. congruence. }
  split.
  - intros b x url. destruct (openagi_default_run w o p) as [[e H]|(rr & y & H)]; rewrite H;
      [discriminate | apply Hgen].
  - intros b x url. destruct (openagi_tasker_run w o p) as [[e H]|(rr & y & H)]; rewrite H;
      [discriminate | apply Hgen].
Qed.

Lemma openagi_replay_url_is_started_replay_witness :
  fst (run (OpenagiCua.oagi_default_task w_ok (Ok true)
              (Some [("instruction", PStr "go"); ("record_replay", PBool true)])))
  = Ok (PDict [("success", PBool true);
               ("result", PStr "Task completed with model lux-actor-1. Success: True");
               ("replay_url", PStr "https://replay/r1")])
  /\ exists rid n l r, w_start w_ok = Some rid /\ w_list w_ok n = Some l /\ In r l
                       /\ ri_replay_id r = rid /\ ri_replay_view_url r = Some "https://replay/r1".
Proof.
  assert (H : fst (run (OpenagiCua.oagi_default_task w_ok (Ok true)
                          (Some [("instruction", PStr "go"); ("record_replay", PBool true)])))
              = Ok (PDict [("success", PBool true);
                           ("result", PStr "Task completed with model lux-actor-1. Success: True");
                           ("replay_url", PStr "https://replay/r1")])) by (vm_compute; reflexivity).
  split; [exact H|].
  exact (proj1 (openagi_replay_url_is_started_replay w_ok (Ok true) _) _ _ _ H).
Defined.
